(** * DeepBlue / LifeTraderAPI: the market-data CLI and the technical report

    A shallow embedding of [LifeTraderAPI/fetchmarketdata.py] and
    [LifeTraderAPI/fetch_news.py].

    - [Py]: the fragment of Python the two scripts rely on (strings,
      [int()], floats seen through their exact rational value, [round],
      dates, exceptions, stdout).
    - [MarketData]: [fetchmarketdata.py] ([quote] and [candles]).
    - [TechReport]: [fetch_news.py] (RSI worker, news worker, report).

    The hosted provider (yfinance), TextBlob and the RSI indicator are
    outside the repository: they enter as oracles. *)

From Stdlib Require Import ZArith QArith Qabs List String Ascii Bool Lia.
From Stdlib Require Import DecimalString.
Import ListNotations.
Local Open Scope string_scope.
Local Open Scope Z_scope.

(* ===================================================================== *)
(** * The Python fragment *)
(* ===================================================================== *)

Module Py.

(** ** Strings (ASCII text) *)

Definition is_space (c : ascii) : bool :=
  let n := Z.of_nat (nat_of_ascii c) in
  ((9 <=? n) && (n <=? 13)) || ((28 <=? n) && (n <=? 32)).

Definition is_digit (c : ascii) : bool :=
  let n := Z.of_nat (nat_of_ascii c) in (48 <=? n) && (n <=? 57).

Definition upper_char (c : ascii) : ascii :=
  let n := nat_of_ascii c in
  if ((97 <=? n) && (n <=? 122))%nat then ascii_of_nat (n - 32) else c.

(** [str.upper()] on ASCII text *)
Fixpoint upper (s : string) : string :=
  match s with
  | EmptyString => EmptyString
  | String c r => String (upper_char c) (upper r)
  end.

(** [needle in hay] *)
Fixpoint contains (needle hay : string) : bool :=
  String.prefix needle hay ||
  match hay with
  | EmptyString => false
  | String _ r => contains needle r
  end.

Fixpoint split_from (cur s : string) : list string :=
  match s with
  | EmptyString => if String.eqb cur "" then [] else [cur]
  | String c r =>
      if is_space c
      then (if String.eqb cur "" then split_from "" r
            else cur :: split_from "" r)
      else split_from (cur ++ String c "") r
  end.

(** [str.split()] without arguments: the maximal runs of non-blanks. *)
Definition split (s : string) : list string := split_from "" s.

(** [s[:n]] for [n >= 0] *)
Fixpoint take (n : nat) (s : string) : string :=
  match n, s with
  | S n', String c r => String c (take n' r)
  | _, _ => EmptyString
  end.

(** ["sep".join(l)] *)
Fixpoint join (sep : string) (l : list string) : string :=
  match l with
  | [] => ""
  | [x] => x
  | x :: r => x ++ sep ++ join sep r
  end.

(** The blanks [int()] strips from an ASCII string: tab to carriage
    return and the space (the separators 0x1C to 0x1F, blanks for
    [str.split], are not among them). *)
Definition is_int_space (c : ascii) : bool :=
  let n := Z.of_nat (nat_of_ascii c) in
  ((9 <=? n) && (n <=? 13)) || (n =? 32).

Fixpoint lstrip (s : string) : string :=
  match s with
  | String c r => if is_int_space c then lstrip r else s
  | EmptyString => EmptyString
  end.

Fixpoint rstrip (s : string) : string :=
  match s with
  | EmptyString => EmptyString
  | String c r =>
      let r' := rstrip r in
      if String.eqb r' "" && is_int_space c then "" else String c r'
  end.

(** A string of ASCII characters only. The string functions of this
    module follow Python on such strings; [str.upper], [str.split] and
    [int] treat other characters (accented letters, further blanks and
    digits) in ways that are not modelled. *)
Fixpoint is_ascii (s : string) : bool :=
  match s with
  | EmptyString => true
  | String c r => (nat_of_ascii c <? 128)%nat && is_ascii r
  end.

(** [str(n)] for an integer *)
Definition str_of_Z (n : Z) : string := NilZero.string_of_int (Z.to_int n).

(** [repr(s)] of a string holding no quote, backslash or control
    character: the text between single quotes. *)
Definition repr_str (s : string) : string := "'" ++ s ++ "'".

(** [repr] of a list of such strings, as [str(list(d.keys()))] prints it. *)
Definition repr_list (l : list string) : string :=
  "[" ++ join ", " (map repr_str l) ++ "]".

(** ** [int(s)] on an ASCII string

    Blanks are stripped, then an optional sign, then decimal digits in
    which single underscores may separate digits. [None] stands for the
    [ValueError]. *)

Inductive int_lex := AtStart | AfterDigit | AfterUnderscore.

Fixpoint int_digits (st : int_lex) (acc : Z) (s : string) : option Z :=
  match s with
  | EmptyString =>
      match st with AfterDigit => Some acc | _ => None end
  | String c r =>
      if is_digit c
      then int_digits AfterDigit (10 * acc + (Z.of_nat (nat_of_ascii c) - 48)) r
      else if Ascii.eqb c "_"
           then match st with
                | AfterDigit => int_digits AfterUnderscore acc r
                | _ => None
                end
           else None
  end.

Definition int_of_str (s : string) : option Z :=
  match rstrip (lstrip s) with
  | String "-" r => option_map Z.opp (int_digits AtStart 0 r)
  | String "+" r => int_digits AtStart 0 r
  | t => int_digits AtStart 0 t
  end.

(** ** Floats

    A finite double is represented by its exact rational value. *)

Inductive pyfloat :=
| Fin (q : Q)
| Nan
| Inf (negative : bool).

(** Round half to even to the nearest integer. *)
Definition round_half_even (q : Q) : Z :=
  let n := Qnum q in
  let d := Zpos (Qden q) in
  let f := n / d in
  let r := 2 * (n mod d) in
  if r <? d then f
  else if d <? r then f + 1
  else if Z.even f then f else f + 1.

(** [round(x, 4)], then printed by [json.dumps]: the decimal with four
    places nearest to the exact value of [x], ties to even.  ([round]
    returns the double nearest to that decimal, whose shortest [repr] is
    the decimal itself for magnitudes below 10^11; beyond, the number
    printed is that double and this reading is not exact: a bound stated
    on the result carries the hypothesis.) Non-finite values go through
    unchanged. *)
Definition round4 (x : pyfloat) : pyfloat :=
  match x with
  | Fin q => Fin (round_half_even (q * 10000) # 10000)
  | _ => x
  end.

(** Truncation toward zero, [int(x)] on a finite float. *)
Definition trunc (q : Q) : Z := Z.quot (Qnum q) (Zpos (Qden q)).

(** Results of operations of the runtime or of a library: a value, or
    an exception (a subclass of [Exception]) with its [str(e)]. *)
Inductive reply (A : Type) :=
| Ok (a : A)
| Fails (msg : string).
Arguments Ok {A} a.
Arguments Fails {A} msg.

(** [int(x)] on a float *)
Definition int_of_float (x : pyfloat) : reply Z :=
  match x with
  | Fin q => Ok (trunc q)
  | Nan => Fails "cannot convert float NaN to integer"
  | Inf _ => Fails "cannot convert float infinity to integer"
  end.

(** Comparisons; every comparison with NaN is false. *)
Definition flt (x y : pyfloat) : bool :=
  match x, y with
  | Fin a, Fin b => if Qlt_le_dec a b then true else false
  | Inf true, Fin _ | Inf true, Inf false | Fin _, Inf false => true
  | _, _ => false
  end.

Definition feqb (x y : pyfloat) : bool :=
  match x, y with
  | Fin a, Fin b => Qeq_bool a b
  | Inf s, Inf t => Bool.eqb s t
  | _, _ => false
  end.

Definition fle (x y : pyfloat) : bool := flt x y || feqb x y.

(** Two floats denote the same number. *)
Definition same_number (x y : pyfloat) : Prop :=
  match x, y with
  | Fin a, Fin b => a == b
  | Inf s, Inf t => s = t
  | _, _ => False
  end.

Definition pad2 (n : Z) : string :=
  if n <? 10 then "0" ++ str_of_Z n else str_of_Z n.

(** [f"{x:.2f}"] *)
Definition format_2f (x : pyfloat) : string :=
  match x with
  | Fin q =>
      let n := round_half_even (Qabs q * 100) in
      (if Qlt_le_dec q 0 then "-" else "") ++
      str_of_Z (n / 100) ++ "." ++ pad2 (n mod 100)
  | Nan => "nan"
  | Inf true => "-inf"
  | Inf false => "inf"
  end.

(** ** Dates (proleptic Gregorian calendar, UTC) *)

(** Civil date of a day number counted from 1970-01-01. *)
Definition civil_from_days (days : Z) : Z * Z * Z :=
  let z := days + 719468 in
  let era := z / 146097 in
  let doe := z - era * 146097 in
  let yoe := (doe - doe / 1460 + doe / 36524 - doe / 146096) / 365 in
  let y := yoe + era * 400 in
  let doy := doe - (365 * yoe + yoe / 4 - yoe / 100) in
  let mp := (5 * doy + 2) / 153 in
  let d := doy - (153 * mp + 2) / 5 + 1 in
  let m := if mp <? 10 then mp + 3 else mp - 9 in
  ((if m <=? 2 then y + 1 else y), m, d).

(** An aware UTC [datetime] with no sub-second part is its number of
    seconds since the epoch. *)
Definition datetime := Z.

Definition epoch_day (t : datetime) : Z := t / 86400.

(** First and last instants of the years 1 and 9999. *)
Definition datetime_min : Z := -62135596800.
Definition datetime_max : Z := 253402300799.

Definition in_datetime_range (t : Z) : bool :=
  (datetime_min <=? t) && (t <=? datetime_max).

(** [dt.strftime("%Y-%m-%d")], as glibc writes it: the year without
    padding (year 5 gives [5-04-19]), month and day with two digits. *)
Definition strftime_ymd (t : datetime) : string :=
  let '(y, m, d) := civil_from_days (epoch_day t) in
  str_of_Z y ++ "-" ++ pad2 m ++ "-" ++ pad2 d.

(** [dt.strftime("%Y-%m-%dT%H:%M:%SZ")] *)
Definition strftime_iso (t : datetime) : string :=
  let s := t mod 86400 in
  strftime_ymd t ++ "T" ++ pad2 (s / 3600) ++ ":" ++ pad2 (s mod 3600 / 60)
    ++ ":" ++ pad2 (s mod 60) ++ "Z".

(** ** JSON documents, as [json.dumps] receives them *)

#[warnings="-register-all"]
Inductive json :=
| JNull
| JBool (b : bool)
| JInt (n : Z)
| JNum (x : pyfloat)
| JStr (s : string)
| JList (l : list json)
| JObj (fields : list (string * json)).

(** [d[key]] on a document *)
Fixpoint assoc {A : Type} (key : string) (d : list (string * A)) : option A :=
  match d with
  | [] => None
  | (k, v) :: r => if String.eqb k key then Some v else assoc key r
  end.

Definition field (key : string) (doc : json) : option json :=
  match doc with
  | JObj fields => assoc key fields
  | _ => None
  end.

(** [list(d.keys())]: keys in insertion order. *)
Definition keys {A : Type} (d : list (string * A)) : list string := map fst d.

(** [key in d] *)
Definition has_key {A : Type} (key : string) (d : list (string * A)) : bool :=
  match assoc key d with Some _ => true | None => false end.

End Py.

(* ===================================================================== *)
(** * fetchmarketdata.py *)
(* ===================================================================== *)

Module MarketData.
Import Py.

(** ** Mappings *)

(** Our timeframe codes to yfinance interval strings. *)
Definition TF_TO_YF_INTERVAL : list (string * string) :=
  [ ("1m", "1m"); ("5m", "5m"); ("15m", "15m"); ("1h", "1h");
    ("1d", "1d"); ("1w", "1wk"); ("1mo", "1mo") ].

(** Our range codes to yfinance period strings (used when [to] is not set). *)
Definition RANGE_TO_YF_PERIOD : list (string * string) :=
  [ ("7d", "7d"); ("30d", "1mo"); ("90d", "3mo"); ("180d", "6mo");
    ("1y", "1y"); ("2y", "2y") ].

(** [timedelta(days=n)], in seconds. *)
Definition timedelta_days (n : Z) : Z := n * 86400.

(** Range codes to the timedelta of the [to]-based fetches. *)
Definition RANGE_TO_TIMEDELTA : list (string * Z) :=
  [ ("7d", timedelta_days 7); ("30d", timedelta_days 30);
    ("90d", timedelta_days 90); ("180d", timedelta_days 180);
    ("1y", timedelta_days 365); ("2y", timedelta_days 730) ].

(** ** The provider and the runtime *)

(** One row of the DataFrame [ticker.history] returns: the value of
    [idx.timestamp()] for its index and its columns. *)
Record row := mk_row {
  row_timestamp : Q;
  row_Open : pyfloat;
  row_High : pyfloat;
  row_Low : pyfloat;
  row_Close : pyfloat;
  row_Volume : pyfloat
}.

Definition frame := list row.

(** The calls the tool makes to the provider. *)
Inductive request :=
| FastInfoLastPrice (symbol : string)
| HistoryPeriod (symbol period : string) (interval : option string)
| HistoryWindow (symbol start end_ interval : string).

(** What lies outside the script: the provider's answers, the clock, and
    the two runtime behaviours left open here ([float(s)] and the text of
    the out-of-range error of [datetime.fromtimestamp]). *)
Record env := mk_env {
  fast_info_last_price : string -> reply (option pyfloat);
  history_period : string -> string -> option string -> reply frame;
  history_window : string -> string -> string -> string -> reply frame;
  now_utc : datetime;
  float_of_str : string -> reply pyfloat;
  fromtimestamp_error : Z -> string
}.

(** ** Exceptions, stdout, exit *)

Inductive exn :=
| Exception (msg : string)
| SystemExit (code : Z).

Inductive result (A : Type) :=
| Return (a : A)
| Raise (e : exn).
Arguments Return {A} a.
Arguments Raise {A} e.

(** What a run has done so far: the documents printed on stdout and the
    requests sent to the provider, oldest first. *)
Record state := mk_state {
  stdout : list json;
  calls : list request
}.

Definition M (A : Type) : Type := state -> result A * state.

Definition ret {A} (a : A) : M A := fun s => (Return a, s).

Definition bind {A B} (m : M A) (k : A -> M B) : M B :=
  fun s =>
    match m s with
    | (Return a, s') => k a s'
    | (Raise e, s') => (Raise e, s')
    end.

Definition raise {A} (e : exn) : M A := fun s => (Raise e, s).

Declare Scope py_scope.
Delimit Scope py_scope with py.
Notation "x <- m ;; k" := (bind m (fun x => k))
  (at level 61, m at next level, right associativity) : py_scope.
Notation "m ;; k" := (bind m (fun _ => k))
  (at level 61, right associativity) : py_scope.
Local Open Scope py_scope.

(** [try: body except Exception as e: handler(str(e))]. [SystemExit] is
    not an [Exception] and passes through. *)
Definition try_except {A} (body : M A) (handler : string -> M A) : M A :=
  fun s =>
    match body s with
    | (Raise (Exception msg), s') => handler msg s'
    | r => r
    end.

(** [print(json.dumps(doc))] *)
Definition print (doc : json) : M unit :=
  fun s => (Return tt, mk_state (stdout s ++ [doc]) (calls s)).

Definition lift {A} (r : reply A) : M A :=
  match r with
  | Ok a => ret a
  | Fails msg => raise (Exception msg)
  end.

Definition call {A} (q : request) (answer : reply A) : M A :=
  fun s => lift answer (mk_state (stdout s) (calls s ++ [q])).

(** [d[key]] *)
Definition getitem {A} (d : list (string * A)) (key : string) : M A :=
  match assoc key d with
  | Some v => ret v
  | None => raise (Exception (repr_str key))
  end.

(** Print a JSON error to stdout and exit. *)
Definition error_json {A} (msg : string) : M A :=
  print (JObj [("ok", JBool false); ("error", JStr msg)]) ;;
  raise (SystemExit 1).

(** ** quote *)

(** [hist["Close"].iloc[-1]] *)
Definition iloc_last (hist : frame) : M row :=
  match rev hist with
  | r :: _ => ret r
  | [] => raise (Exception "single positional indexer is out-of-bounds")
  end.

(** The [try] block of [cmd_quote]. *)
Definition quote_try (e : env) (symbol : string) : M unit :=
  info_price <- call (FastInfoLastPrice symbol)
                     (fast_info_last_price e symbol) ;;
  price <- match info_price with
           | Some p => ret p
           | None =>
               (* Fallback: use last close from 1d history *)
               hist <- call (HistoryPeriod symbol "1d" None)
                            (history_period e symbol "1d" None) ;;
               (match hist with
                | [] => error_json ("No quote data found for " ++ symbol)
                | _ => ret tt
                end) ;;
               last <- iloc_last hist ;;
               ret (row_Close last)
           end ;;
  print (JObj [ ("ok", JBool true);
                ("symbol", JStr symbol);
                ("price", JNum (round4 price));
                ("timestampUtc", JStr (strftime_iso (now_utc e))) ]).

(** Fetch the latest quote for a symbol. *)
Definition cmd_quote (e : env) (args_symbol : string) : M unit :=
  let symbol := upper args_symbol in
  try_except
    (quote_try e symbol)
    (fun msg =>
       error_json ("Quote fetch failed for " ++ symbol ++ ": " ++ msg)).

(** ** candles *)

(** The parsed arguments of the [candles] subcommand; [--limit] defaults
    to ["500"] and [--to] to [None]. *)
Record candles_args := mk_args {
  args_symbol : string;
  args_tf : string;
  args_range : string;
  args_limit : string;
  args_to : option string
}.

(** [int(s)] *)
Definition int (s : string) : M Z :=
  match int_of_str s with
  | Some n => ret n
  | None =>
      raise (Exception ("invalid literal for int() with base 10: "
                        ++ repr_str s))
  end.

(** [datetime.fromtimestamp(t, tz=timezone.utc)] *)
Definition fromtimestamp (e : env) (t : Z) : M datetime :=
  if in_datetime_range t then ret t
  else raise (Exception (fromtimestamp_error e t)).

(** [dt - delta] *)
Definition datetime_sub (dt : datetime) (delta : Z) : M datetime :=
  if in_datetime_range (dt - delta) then ret (dt - delta)
  else raise (Exception "date value out of range").

(** [hist.iloc[k:]], with Python's reading of a slice start. *)
Definition iloc_from {A} (k : Z) (l : list A) : list A :=
  let n := Z.of_nat (List.length l) in
  let start := if k <? 0 then Z.max (k + n) 0 else Z.min k n in
  skipn (Z.to_nat start) l.

(** The body of the loop over [hist.iterrows()]. *)
Definition candle_of_row (r : row) : M json :=
  let ts := trunc (row_timestamp r) in
  volume <- lift (int_of_float (row_Volume r)) ;;
  ret (JObj [ ("time", JInt ts);
              ("open", JNum (round4 (row_Open r)));
              ("high", JNum (round4 (row_High r)));
              ("low", JNum (round4 (row_Low r)));
              ("close", JNum (round4 (row_Close r)));
              ("volume", JInt volume) ]).

Fixpoint iterrows (hist : frame) (candles : list json) : M (list json) :=
  match hist with
  | [] => ret candles
  | r :: rest =>
      c <- candle_of_row r ;;
      iterrows rest (candles ++ [c])
  end.

(** [doc[key]] on a dict *)
Definition getfield (doc : json) (key : string) : M json :=
  match field key doc with
  | Some v => ret v
  | None => raise (Exception (repr_str key))
  end.

(** The two branches of [if to_ts:], each ending in its call of
    [ticker.history]. *)
Definition fetch_standard (e : env) (symbol range_code yf_interval : string)
    : M frame :=
  (* Standard mode: use period *)
  yf_period <- getitem RANGE_TO_YF_PERIOD range_code ;;
  call (HistoryPeriod symbol yf_period (Some yf_interval))
       (history_period e symbol yf_period (Some yf_interval)).

Definition fetch_paging (e : env) (symbol range_code yf_interval : string)
    (to_ts : string) : M frame :=
  (* Paging mode: fetch a window ending at 'to' *)
  x <- lift (float_of_str e to_ts) ;;
  to_unix <- lift (int_of_float x) ;;
  end_dt <- fromtimestamp e to_unix ;;
  delta <- getitem RANGE_TO_TIMEDELTA range_code ;;
  start_dt <- datetime_sub end_dt delta ;;
  call (HistoryWindow symbol (strftime_ymd start_dt) (strftime_ymd end_dt)
                      yf_interval)
       (history_window e symbol (strftime_ymd start_dt) (strftime_ymd end_dt)
                       yf_interval).

(** [if to_ts: ... else: ...]; a string is true when it is not empty. *)
Definition fetch_history (e : env) (symbol range_code yf_interval : string)
    (to_ts : option string) : M frame :=
  match to_ts with
  | Some s =>
      if String.eqb s ""
      then fetch_standard e symbol range_code yf_interval
      else fetch_paging e symbol range_code yf_interval s
  | None => fetch_standard e symbol range_code yf_interval
  end.

(** Trim to limit (keep most recent):
    [if len(hist) > limit: hist = hist.iloc[-limit:]] *)
Definition trim_to_limit (limit : Z) (hist : frame) : frame :=
  if limit <? Z.of_nat (List.length hist)
  then iloc_from (- limit) hist else hist.

(** The [try] block of [cmd_candles]. *)
Definition candles_try (e : env) (symbol tf range_code yf_interval : string)
    (limit : Z) (to_ts : option string) : M unit :=
  hist <- fetch_history e symbol range_code yf_interval to_ts ;;
  (match hist with
   | [] => error_json ("No candle data returned for " ++ symbol
                       ++ " tf=" ++ tf ++ " range=" ++ range_code)
   | _ => ret tt
   end) ;;
  let hist := trim_to_limit limit hist in
  candles <- iterrows hist [] ;;
  (* nextTo hint: timestamp of the earliest candle *)
  next_to <- match candles with
             | c :: _ => getfield c "time"
             | [] => ret JNull
             end ;;
  print (JObj [ ("ok", JBool true);
                ("symbol", JStr symbol);
                ("tf", JStr tf);
                ("candles", JList candles);
                ("nextTo", next_to) ]).

(** Fetch OHLCV candle data for a symbol. *)
Definition cmd_candles (e : env) (args : candles_args) : M unit :=
  let symbol := upper (args_symbol args) in
  let tf := args_tf args in
  let range_code := args_range args in
  n <- int (args_limit args) ;;
  let limit := Z.min n 2000 in
  let to_ts := args_to args in
  (if negb (has_key tf TF_TO_YF_INTERVAL)
   then error_json ("Invalid timeframe '" ++ tf ++ "'. Allowed: "
                    ++ repr_list (keys TF_TO_YF_INTERVAL))
   else ret tt) ;;
  (if negb (has_key range_code RANGE_TO_YF_PERIOD)
   then error_json ("Invalid range '" ++ range_code ++ "'. Allowed: "
                    ++ repr_list (keys RANGE_TO_YF_PERIOD))
   else ret tt) ;;
  yf_interval <- getitem TF_TO_YF_INTERVAL tf ;;
  try_except
    (candles_try e symbol tf range_code yf_interval limit to_ts)
    (fun msg =>
       error_json ("Candle fetch failed for " ++ symbol ++ ": " ++ msg)).

(** ** Entry point *)

(** What [parser.parse_args()] hands over when it accepts the command
    line ([args.command] and the subcommand's arguments). *)
Inductive command :=
| Quote (symbol : string)
| Candles (args : candles_args)
| NoCommand.

Definition main (e : env) (cmd : command) : M unit :=
  match cmd with
  | Quote symbol => cmd_quote e symbol
  | Candles args => cmd_candles e args
  | NoCommand => error_json "Unknown command. Use 'quote' or 'candles'."
  end.

(** What the operating system sees of a finished process. An exception
    nobody caught ends the interpreter with a traceback on stderr and
    exit code 1. *)
Record outcome := mk_outcome {
  out_stdout : list json;
  out_calls : list request;
  exit_code : Z;
  traceback : option string
}.

Definition run (m : M unit) : outcome :=
  match m (mk_state [] []) with
  | (Return _, s) => mk_outcome (stdout s) (calls s) 0 None
  | (Raise (SystemExit c), s) => mk_outcome (stdout s) (calls s) c None
  | (Raise (Exception msg), s) =>
      mk_outcome (stdout s) (calls s) 1 (Some msg)
  end.

End MarketData.

(* ===================================================================== *)
(** * fetch_news.py *)
(* ===================================================================== *)

Module TechReport.
Import Py.

(** ** The provider and the libraries *)

(** The [content] dict of a news item; [None] is a missing key. *)
Record content := mk_content {
  title : option string;
  summary : option string;
  pubDate : option string
}.

(** A news item; [None] is a missing ['content'] key. *)
Record news_item := mk_item { item_content : option content }.

(** [d.get(key, default)] *)
Definition get {A} (field : option A) (default : A) : A :=
  match field with Some v => v | None => default end.

(** What lies outside the script: the provider (the Close column of
    [ticker.history(period="1mo")], [ticker.news], the ['shortName'] entry
    of [ticker.info]), the last value of the 14-period RSI of the [ta]
    library, TextBlob's polarity, and float addition and division. *)
Record world := mk_world {
  history_1mo_Close : string -> reply (list pyfloat);
  rsi_14_last : list pyfloat -> reply pyfloat;
  news : string -> reply (list news_item);
  info_shortName : string -> reply (option string);
  polarity : string -> pyfloat;
  fadd : pyfloat -> pyfloat -> pyfloat;
  fdiv : pyfloat -> Z -> pyfloat
}.

(** ** Global variables (to store results from threads) *)

Record globals := mk_globals {
  result_rsi : pyfloat;
  result_news : string;
  result_sentiment : pyfloat
}.

Definition initial : globals :=
  mk_globals (Fin (-1)) "No Data" (Fin 0).

(** An assignment to a global variable. A worker is read as the sequence
    of assignments it performs, in program order; it reads no global. *)
Inductive write :=
| SetRsi (x : pyfloat)
| SetNews (s : string)
| SetSentiment (x : pyfloat).

Definition assign (g : globals) (w : write) : globals :=
  match w with
  | SetRsi x => mk_globals x (result_news g) (result_sentiment g)
  | SetNews s => mk_globals (result_rsi g) s (result_sentiment g)
  | SetSentiment x => mk_globals (result_rsi g) (result_news g) x
  end.

(** The doubles written [0.1] and [-0.1]. *)
Definition f_0_1 : pyfloat := Fin (3602879701896397 # 36028797018963968).
Definition f_neg_0_1 : pyfloat := Fin (-3602879701896397 # 36028797018963968).

(** ** Helper functions *)

Definition get_sentiment_score (e : world) (text : string) : pyfloat :=
  if String.eqb text "" then Fin 0 else polarity e text.

(** Worker 1: calculates RSI. The bare [except:] catches everything. *)
Definition get_rsi_data (e : world) (symbol : string) : list write :=
  match history_1mo_Close e symbol with
  | Ok hist =>
      match hist with
      | _ :: _ =>
          match rsi_14_last e hist with
          | Ok x => [SetRsi x]
          | Fails _ => [SetRsi (Fin (-1))]
          end
      | [] => [SetRsi (Fin (-1))]
      end
  | Fails _ => [SetRsi (Fin (-1))]
  end.

(** The local variables of the news loop, and (for the statements about
    where the loop stops) the items the iterator has not handed out. *)
Record loop_state := mk_loop {
  headlines : list string;
  total_score : pyfloat;
  count : Z;
  unread : list news_item
}.

Definition item_title (item : news_item) : string :=
  get (title (get (item_content item) (mk_content None None None))) "No Title".

Definition item_summary (item : news_item) : string :=
  get (summary (get (item_content item) (mk_content None None None))) "".

Definition item_pub_date (item : news_item) : string :=
  take 10 (get (pubDate (get (item_content item) (mk_content None None None))) "").

(** Filter logic *)
Definition combined_text (item : news_item) : string :=
  upper (item_title item ++ " " ++ item_summary item).

Definition is_relevant (keywords : list string) (item : news_item) : bool :=
  existsb (fun k => contains (upper k) (combined_text item)) keywords.

Definition label_of (score : pyfloat) : string :=
  if flt f_0_1 score then "POSITIVE"
  else if flt score f_neg_0_1 then "NEGATIVE"
  else "NEUTRAL".

Definition headline (e : world) (item : news_item) : string :=
  "- [" ++ item_pub_date item ++ "] " ++ item_title item
    ++ " [" ++ label_of (get_sentiment_score e (item_title item)) ++ "]".

(** [for item in news_list: ... if count >= 5: break] *)
Fixpoint news_loop (e : world) (keywords : list string)
    (news_list : list news_item) (st : loop_state) : loop_state :=
  match news_list with
  | [] => mk_loop (headlines st) (total_score st) (count st) []
  | item :: rest =>
      let st' :=
        if is_relevant keywords item
        then
          let score := get_sentiment_score e (item_title item) in
          mk_loop (headlines st ++ [headline e item])
                  (fadd e (total_score st) score)
                  (count st + 1)
                  rest
        else mk_loop (headlines st) (total_score st) (count st) rest in
      if 5 <=? count st' then st' else news_loop e keywords rest st'
  end.

(** [l[0]] *)
Definition first {A} (l : list A) : reply A :=
  match l with
  | x :: _ => Ok x
  | [] => Fails "list index out of range"
  end.

(** The [try] block of worker 2, up to its two assignments: the values
    it is about to store in [result_news] and [result_sentiment]. (The
    guard [if news_list:] needs no case of its own: on an empty feed the
    loop runs no iteration.) *)
Definition news_try (e : world) (symbol : string) : reply (string * pyfloat) :=
  match news e symbol with
  | Fails msg => Fails msg
  | Ok news_list =>
      match info_shortName e symbol with
      | Fails msg => Fails msg
      | Ok shortName =>
          match first (split (get shortName "")) with
          | Fails msg => Fails msg
          | Ok word =>
              let keywords := [symbol; word] in
              let st := news_loop e keywords news_list
                          (mk_loop [] (Fin 0) 0 news_list) in
              let headlines :=
                match headlines st with
                | [] => ["No specific news found for " ++ symbol ++ "."]
                | hs => hs
                end in
              Ok (join (String "010" "") headlines,
                  if 0 <? count st then fdiv e (total_score st) (count st)
                  else Fin 0)
          end
      end
  end.

(** Worker 2: fetches and filters news. *)
Definition get_news_data (e : world) (symbol : string) : list write :=
  match news_try e symbol with
  | Ok (text, sentiment) => [SetNews text; SetSentiment sentiment]
  | Fails msg => [SetNews ("Error: " ++ msg)]
  end.

(** ** Main execution *)

(** The two threads run concurrently: the assignments of the two workers
    reach the globals in some interleaving of their program orders. *)
Inductive interleaving : list write -> list write -> list write -> Prop :=
| il_nil : interleaving [] [] []
| il_left w a b c : interleaving a b c -> interleaving (w :: a) b (w :: c)
| il_right w a b c : interleaving a b c -> interleaving a (w :: b) (w :: c).

Definition rsi_status (rsi : pyfloat) : string :=
  if feqb rsi (Fin (-1)) then "DATA ERROR"
  else if fle (Fin 70) rsi then "OVERBOUGHT (SELL RISK)"
  else if fle rsi (Fin 30) then "OVERSOLD (BUY CHANCE)"
  else "NEUTRAL".

Definition sent_status (sentiment : pyfloat) : string :=
  if flt f_0_1 sentiment then "BULLISH"
  else if flt sentiment f_neg_0_1 then "BEARISH"
  else "NEUTRAL".

(** The lines printed once both threads are joined. *)
Definition report (symbol : string) (g : globals) : list string :=
  [ "--- TECHNICAL REPORT (" ++ symbol ++ ") ---";
    "RSI (14-day): " ++ format_2f (result_rsi g)
      ++ " [" ++ rsi_status (result_rsi g) ++ "]";
    "SENTIMENT:    " ++ format_2f (result_sentiment g)
      ++ " [" ++ sent_status (result_sentiment g) ++ "]";
    "------------------------------";
    "TOP NEWS HEADLINES:";
    result_news g ].

(** The globals after [join], for a schedule of the workers' writes. *)
Definition joined (schedule : list write) : globals :=
  fold_left assign schedule initial.

(** What a run of the script on [argv] prints: without a symbol the
    error line (and exit code 1); otherwise, for some schedule of the two
    workers on [argv[1].upper()], the report. *)
Definition main_prints (e : world) (argv : list string)
    (lines : list string) : Prop :=
  match argv with
  | _ :: arg :: _ =>
      let symbol := upper arg in
      exists schedule,
        interleaving (get_rsi_data e symbol) (get_news_data e symbol) schedule
        /\ lines = report symbol (joined schedule)
  | _ => lines = ["Error: No symbol provided."]
  end.

End TechReport.

Module PySpec.
Import Py.

(** [k] occurs in [s]. *)
Definition substring (k s : string) : Prop :=
  exists a b, s = a ++ k ++ b.

(** A string made of blanks only (the empty string too) has no words. *)
Fixpoint all_blank (s : string) : bool :=
  match s with
  | EmptyString => true
  | String c r => is_space c && all_blank r
  end.


End PySpec.

(* ===================================================================== *)
(** * Vocabulary of the statements *)
(* ===================================================================== *)

Module MarketDataSpec.
Import Py MarketData.

(** The failure object [{"ok": false, "error": msg}]. *)
Definition error_doc (msg : string) : json :=
  JObj [("ok", JBool false); ("error", JStr msg)].

(** A process that printed the failure object and left with code 1. *)
Definition failed_with (msg : string) (sent : list request) : outcome :=
  mk_outcome [error_doc msg] sent 1 None.

(** The provider's answer to a request for history. *)
Definition answer (e : env) (rq : request) : reply frame :=
  match rq with
  | HistoryPeriod s p i => history_period e s p i
  | HistoryWindow s a b i => history_window e s a b i
  | FastInfoLastPrice _ => Fails ""
  end.

Definition finite_volume (r : row) : bool :=
  match row_Volume r with Fin _ => true | _ => false end.

(** The dict the loop appends for a row whose volume converts. *)
Definition candle (r : row) : json :=
  JObj [ ("time", JInt (trunc (row_timestamp r)));
         ("open", JNum (round4 (row_Open r)));
         ("high", JNum (round4 (row_High r)));
         ("low", JNum (round4 (row_Low r)));
         ("close", JNum (round4 (row_Close r)));
         ("volume", JInt (match row_Volume r with
                          | Fin q => trunc q
                          | _ => 0
                          end)) ].

(** The success object of [candles]. *)
Definition candles_doc (symbol tf : string) (candles : list json)
    (next_to : json) : json :=
  JObj [ ("ok", JBool true); ("symbol", JStr symbol); ("tf", JStr tf);
         ("candles", JList candles); ("nextTo", next_to) ].

(** The [nextTo] entry for the rows that were converted. *)
Definition next_to_of (hist : frame) : json :=
  match hist with
  | [] => JNull
  | r :: _ => JInt (trunc (row_timestamp r))
  end.

(** The success object of [quote]. *)
Definition quote_doc (symbol : string) (price : pyfloat) (now : datetime)
    : json :=
  JObj [ ("ok", JBool true); ("symbol", JStr symbol);
         ("price", JNum price);
         ("timestampUtc", JStr (strftime_iso now)) ].

(** Rows in ascending order of time. *)
Fixpoint ascending (hist : frame) : Prop :=
  match hist with
  | [] => True
  | r :: rest =>
      (forall r', In r' rest -> (row_timestamp r <= row_timestamp r')%Q)
      /\ ascending rest
  end.

(** The provider answers every request for history in ascending order. *)
Definition ascending_provider (e : env) : Prop :=
  forall rq hist, answer e rq = Ok hist -> ascending hist.

(** The last [n] elements of a list. *)
Definition lastn {A} (n : nat) (l : list A) : list A :=
  skipn (List.length l - n) l.

(** The range codes and their fixed durations, in days. *)
Definition range_days : list (string * Z) :=
  [ ("7d", 7); ("30d", 30); ("90d", 90); ("180d", 180);
    ("1y", 365); ("2y", 730) ].

(** Day number of a civil date, counted from 1970-01-01. *)
Definition days_from_civil (y m d : Z) : Z :=
  let y := if m <=? 2 then y - 1 else y in
  let era := y / 400 in
  let yoe := y - era * 400 in
  let doy := (153 * (if 2 <? m then m - 3 else m + 9) + 2) / 5 + d - 1 in
  let doe := yoe * 365 + yoe / 4 - yoe / 100 + doy in
  era * 146097 + doe - 719468.

(** The instant a date written [YYYY-MM-DD] denotes: midnight UTC at the
    start of that day. *)
Definition utc_midnight (date : string) : option Z :=
  match int_of_str (String.substring 0 4 date),
        int_of_str (String.substring 5 2 date),
        int_of_str (String.substring 8 2 date) with
  | Some y, Some m, Some d => Some (days_from_civil y m d * 86400)
  | _, _, _ => None
  end.

(** The window as the specification words it: the end handed to the
    provider is the pivot instant itself and the start lies the whole
    duration before it. *)
Definition window_at_pivot (rq : request) (pivot duration : Z) : Prop :=
  match rq with
  | HistoryWindow _ start end_ _ =>
      utc_midnight end_ = Some pivot
      /\ utc_midnight start = Some (pivot - duration)
  | _ => False
  end.

End MarketDataSpec.

Module Scenarios.
Import Py MarketData.

(** [float(s)] on the strings [int(s)] accepts (integer literals). *)
Definition float_of_literal (s : string) : reply pyfloat :=
  match int_of_str s with
  | Some n => Ok (Fin (inject_Z n))
  | None => Fails ("could not convert string to float: " ++ repr_str s)
  end.

Definition bar (time : Z) (close : Q) (volume : Z) : row :=
  mk_row (inject_Z time) (Fin close) (Fin close) (Fin close) (Fin close)
         (Fin (inject_Z volume)).

(** Three daily bars; the middle close is the double nearest to the
    single-precision 189.95, as the provider reports prices. *)
Definition three_bars : frame :=
  [ bar 1699920000 (1#3) 100;
    bar 1700006400 (12448563 # 65536) 200;
    bar 1700092800 191 300 ].

(** A provider with no fast price that answers every history request
    with [hist]. *)
Definition provider (hist : frame) : env :=
  mk_env (fun _ => Ok None)
         (fun _ _ _ => Ok hist)
         (fun _ _ _ _ => Ok hist)
         1700100000
         float_of_literal
         (fun t => "year " ++ str_of_Z t ++ " is out of range").

Definition amd : env := provider three_bars.

End Scenarios.

Module TechReportSpec.
Import Py TechReport.

(** Assignments to [result_rsi] only. *)
Definition writes_rsi (w : write) : Prop :=
  match w with SetRsi _ => True | _ => False end.

(** Assignments to [result_news] and [result_sentiment] only. *)
Definition writes_news (w : write) : Prop :=
  match w with SetRsi _ => False | _ => True end.

(** The sentiment score the loop computes for an item. *)
Definition score_of (e : world) (item : news_item) : pyfloat :=
  get_sentiment_score e (item_title item).





(** The values the specification allows for the RSI: the interval from 0
    to 100 and the sentinel -1.0. *)
Definition rsi_as_specified (x : pyfloat) : Prop :=
  match x with
  | Fin q => (0 <= q /\ q <= 100)%Q \/ (q == -1)%Q
  | _ => False
  end.

End TechReportSpec.

Module ReportScenarios.
Import Py TechReport.

Definition story (title summary date : string) : news_item :=
  mk_item (Some (mk_content (Some title) (Some summary) (Some date))).

(** Seven items, six of them about AMD. *)
Definition feed : list news_item :=
  [ story "AMD unveils new accelerator" "Chip maker targets data centers"
          "2024-05-01T12:00:00Z";
    story "Markets close higher" "Broad rally on Wall Street"
          "2024-05-01T21:00:00Z";
    story "Chip stocks surge" "Advanced Micro Devices leads gains"
          "2024-05-02T09:30:00Z";
    story "Why amd shares jumped" "" "2024-05-02T15:00:00Z";
    story "Analysts lift AMD target" "Upgrade cites demand"
          "2024-05-03T08:00:00Z";
    story "AMD earnings preview" "What to watch" "2024-05-04T08:00:00Z";
    story "AMD and partners" "New alliance" "2024-05-05T08:00:00Z" ].

Definition exact_add (x y : pyfloat) : pyfloat :=
  match x, y with Fin a, Fin b => Fin (a + b) | _, _ => Nan end.

Definition exact_div (x : pyfloat) (n : Z) : pyfloat :=
  match x with Fin a => Fin (a / inject_Z n) | _ => Nan end.

(** A provider with a month of closes and the feed above; the answers
    for the news and the short name are given. *)
Definition report_provider (the_news : reply (list news_item))
    (short_name : reply (option string)) : world :=
  mk_world (fun _ => Ok [Fin 100; Fin 101; Fin 102])
         (fun _ => Ok (Fin 55))
         (fun _ => the_news)
         (fun _ => short_name)
         (fun _ => Fin (1 # 4))
         exact_add exact_div.


(** A symbol listed thirteen trading days ago: the indicator, whose
    window is 14, has no value yet and returns NaN. *)
Definition thirteen_closes : list pyfloat :=
  map (fun n => Fin (inject_Z n))
      [100; 101; 102; 101; 103; 104; 103; 105; 106; 105; 107; 108; 107].

Definition recently_listed : world :=
  mk_world (fun _ => Ok thirteen_closes)
           (fun hist => if (List.length hist <? 14)%nat then Ok Nan
                        else Ok (Fin 55))
           (fun _ => Ok feed)
           (fun _ => Ok (Some "Advanced Micro Devices, Inc."))
           (fun _ => Fin (1 # 4))
           exact_add exact_div.

End ReportScenarios.

Module MoreScenarios.
Import Py MarketData.

(** A provider described by its three answers. *)
Definition answering (fast : reply (option pyfloat))
    (period window : reply frame) : env :=
  mk_env (fun _ => fast)
         (fun _ _ _ => period)
         (fun _ _ _ _ => window)
         1700100000
         Scenarios.float_of_literal
         (fun t => "year " ++ str_of_Z t ++ " is out of range").

(** A bar whose volume the provider reports as NaN. *)
Definition bar_without_volume (time : Z) (close : Q) : row :=
  mk_row (inject_Z time) (Fin close) (Fin close) (Fin close) (Fin close) Nan.

End MoreScenarios.

(* ===================================================================== *)
(** * Facts about the Python fragment *)
(* ===================================================================== *)

Module PyFacts.
Import Py PySpec.
Local Arguments String.eqb : simpl never.

Lemma prefix_app (k s : string) :
  String.prefix k s = true <-> exists b, s = k ++ b.
Proof.
  revert s. induction k as [|c k IH]; intros s; simpl.
  - split; [intros _; now exists s | now destruct s].
  - destruct s as [|d s]; simpl.
    + split; [discriminate | intros [b Hb]; discriminate].
    + destruct (Ascii.ascii_dec c d) as [Hcd|Hcd].
      * rewrite IH. split; intros [b Hb]; exists b; [now subst | now injection Hb].
      * split; [discriminate | intros [b Hb]; injection Hb; congruence].
Qed.

(** [needle in hay] decides occurrence. *)
Lemma contains_spec (k s : string) :
  contains k s = true <-> substring k s.
Proof.
  unfold substring. induction s as [|c s IH].
  - cbn [contains]. rewrite orb_false_r, prefix_app. split.
    + intros [b Hb]. now exists "", b.
    + intros [a [b Hb]]. destruct a; [now exists b | discriminate].
  - cbn [contains]. rewrite orb_true_iff, prefix_app, IH. split.
    + intros [[b Hb] | [a [b Hb]]].
      * now exists "", b.
      * exists (String c a), b. simpl. now rewrite Hb.
    + intros [a [b Hb]]. destruct a as [|d a].
      * left. now exists b.
      * right. injection Hb as _ Hb. now exists a, b.
Qed.

Lemma split_all_blank (s : string) :
  all_blank s = true -> split s = [].
Proof.
  unfold split. induction s as [|c s IH]; simpl; [reflexivity|].
  intros H. apply andb_true_iff in H as [Hc Hs]. rewrite Hc. auto.
Qed.




Lemma epoch_day_sub (t n : Z) :
  epoch_day (t - n * 86400) = epoch_day t - n.
Proof.
  unfold epoch_day.
  replace (t - n * 86400) with (t + (- n) * 86400) by lia.
  rewrite Z.div_add by lia. lia.
Qed.

(** The date written depends on the day only. *)
Lemma strftime_ymd_day (t u : Z) :
  epoch_day t = epoch_day u -> strftime_ymd t = strftime_ymd u.
Proof. unfold strftime_ymd. now intros ->. Qed.

Lemma div_le_cross (a b c d : Z) :
  0 < b -> 0 < d -> a * d <= c * b -> a / b <= c / d.
Proof.
  intros Hb Hd H. apply Z.div_le_lower_bound; [assumption|].
  pose proof (Z.mul_div_le a b Hb) as Hq.
  apply (Z.mul_le_mono_pos_l _ _ b Hb).
  replace (b * (d * (a / b))) with (b * (a / b) * d) by ring.
  apply Z.le_trans with (a * d); [|lia].
  apply Z.mul_le_mono_nonneg_r; lia.
Qed.

(** Truncation toward zero is monotone. *)
Lemma trunc_monotone (p q : Q) : (p <= q)%Q -> trunc p <= trunc q.
Proof.
  unfold trunc, Qle. destruct p as [a b], q as [c d]. simpl. intros H.
  assert (Hb : 0 < Zpos b) by lia. assert (Hd : 0 < Zpos d) by lia.
  destruct (Z_lt_le_dec a 0) as [Ha|Ha], (Z_lt_le_dec c 0) as [Hc|Hc].
  - replace a with (- (- a)) by lia. replace c with (- (- c)) by lia.
    rewrite (Z.quot_opp_l (- a)), (Z.quot_opp_l (- c)) by lia.
    rewrite !Z.quot_div_nonneg by lia.
    apply -> Z.opp_le_mono. apply div_le_cross; lia.
  - apply Z.le_trans with 0.
    + replace a with (- (- a)) by lia. rewrite (Z.quot_opp_l (- a)) by lia.
      pose proof (Z.quot_pos (- a) (Zpos b)). lia.
    + apply Z.quot_pos; lia.
  - exfalso. nia.
  - rewrite !Z.quot_div_nonneg by lia. apply div_le_cross; lia.
Qed.

End PyFacts.

(* ===================================================================== *)
(** * fetchmarketdata.py: runs of the tool *)
(* ===================================================================== *)

Module MarketDataFacts.
Import Py MarketData MarketDataSpec.
Local Open Scope py_scope.
Local Arguments String.eqb : simpl never.

Lemma has_key_assoc {A} (k : string) (d : list (string * A)) :
  has_key k d = true <-> exists v, assoc k d = Some v.
Proof.
  unfold has_key. destruct (assoc k d) as [v|].
  - split; [now exists v | reflexivity].
  - split; [discriminate | now intros [v Hv]].
Qed.

(** The three tables have the same range codes. *)
Lemma range_tables_agree (rc : string) :
  has_key rc RANGE_TO_YF_PERIOD = true ->
  exists period days,
    assoc rc RANGE_TO_YF_PERIOD = Some period
    /\ assoc rc range_days = Some days
    /\ assoc rc RANGE_TO_TIMEDELTA = Some (days * 86400).
Proof.
  unfold has_key. simpl.
  repeat (destruct (String.eqb _ rc);
          [intros _; eexists; eexists; repeat split; reflexivity|]).
  discriminate.
Qed.

Lemma bind_return {A B} (m : M A) (k : A -> M B) s a s' :
  m s = (Return a, s') -> bind m k s = k a s'.
Proof. unfold bind. now intros ->. Qed.

Lemma bind_raise {A B} (m : M A) (k : A -> M B) s x s' :
  m s = (Raise x, s') -> bind m k s = (Raise x, s').
Proof. unfold bind. now intros ->. Qed.

(** ** The loop over the rows *)

Lemma iterrows_finite (hist : frame) (acc : list json) (s : state) :
  forallb finite_volume hist = true ->
  iterrows hist acc s = (Return (acc ++ map candle hist)%list, s).
Proof.
  revert acc. induction hist as [|r rest IH]; intros acc H; simpl.
  - now rewrite app_nil_r.
  - apply andb_true_iff in H as [Hr Hrest].
    unfold bind at 1. unfold candle_of_row, finite_volume in *.
    destruct (row_Volume r) eqn:Ev; try discriminate.
    unfold bind, lift, int_of_float, ret. simpl.
    rewrite IH by assumption. rewrite <- app_assoc. simpl.
    unfold candle. now rewrite Ev.
Qed.

Lemma iterrows_not_finite (hist : frame) (acc : list json) (s : state) :
  forallb finite_volume hist = false ->
  exists msg, iterrows hist acc s = (Raise (Exception msg), s).
Proof.
  revert acc. induction hist as [|r rest IH]; intros acc H; simpl in *.
  - discriminate.
  - unfold bind at 1. unfold candle_of_row, finite_volume in *.
    destruct (row_Volume r) eqn:Ev; simpl in *.
    + unfold bind, ret. simpl. apply IH. assumption.
    + eexists. reflexivity.
    + eexists. reflexivity.
Qed.

(** ** The fetch *)

Lemma state_eta (s : state) : s = mk_state (stdout s) (calls s ++ []).
Proof. destruct s. simpl. now rewrite app_nil_r. Qed.

Lemma fetch_history_cases e symbol rc iv to_ts (s : state) :
  (exists msg sent,
      fetch_history e symbol rc iv to_ts s
      = (Raise (Exception msg), mk_state (stdout s) (calls s ++ sent)))
  \/ (exists rq hist,
      answer e rq = Ok hist
      /\ fetch_history e symbol rc iv to_ts s
         = (Return hist, mk_state (stdout s) (calls s ++ [rq]))).
Proof.
  assert (Hstd :
    (exists msg sent,
      fetch_standard e symbol rc iv s
      = (Raise (Exception msg), mk_state (stdout s) (calls s ++ sent)))
    \/ (exists rq hist,
      answer e rq = Ok hist
      /\ fetch_standard e symbol rc iv s
         = (Return hist, mk_state (stdout s) (calls s ++ [rq])))).
  { unfold fetch_standard, bind, getitem.
    destruct (assoc rc RANGE_TO_YF_PERIOD) as [period|].
    - unfold ret, call.
      destruct (history_period e symbol period (Some iv)) as [hist|msg] eqn:E.
      + right. exists (HistoryPeriod symbol period (Some iv)), hist.
        split; [exact E | reflexivity].
      + left. exists msg, [HistoryPeriod symbol period (Some iv)]. reflexivity.
    - left. eexists. exists []. unfold raise. now rewrite <- state_eta. }
  unfold fetch_history. destruct to_ts as [t|]; [|exact Hstd].
  destruct (String.eqb t ""); [exact Hstd|].
  unfold fetch_paging, bind, lift.
  destruct (float_of_str e t) as [x|msg]; unfold ret, raise;
    [|left; exists msg, []; now rewrite <- state_eta].
  destruct (int_of_float x) as [to_unix|msg];
    [|left; exists msg, []; now rewrite <- state_eta].
  unfold fromtimestamp.
  destruct (in_datetime_range to_unix); unfold ret, raise;
    [|left; eexists; exists []; now rewrite <- state_eta].
  unfold getitem.
  destruct (assoc rc RANGE_TO_TIMEDELTA) as [delta|]; unfold ret, raise;
    [|left; eexists; exists []; now rewrite <- state_eta].
  unfold datetime_sub.
  destruct (in_datetime_range (to_unix - delta)); unfold ret, raise;
    [|left; eexists; exists []; now rewrite <- state_eta].
  unfold call.
  match goal with
  | |- context [lift ?a] => destruct a as [hist|msg] eqn:E
  end.
  - right. eexists (HistoryWindow _ _ _ _), hist. split; [exact E|reflexivity].
  - left. exists msg. eexists [_]. reflexivity.
Qed.

(** ** The [try] block of [candles] *)

Lemma candles_try_cases e symbol tf rc iv limit to_ts (s : state) :
  (exists msg sent,
      candles_try e symbol tf rc iv limit to_ts s
      = (Raise (Exception msg), mk_state (stdout s) (calls s ++ sent)))
  \/ (exists rq,
      answer e rq = Ok []
      /\ candles_try e symbol tf rc iv limit to_ts s
         = (Raise (SystemExit 1),
            mk_state (stdout s ++
                      [error_doc ("No candle data returned for " ++ symbol
                                  ++ " tf=" ++ tf ++ " range=" ++ rc)])
                     (calls s ++ [rq])))
  \/ (exists rq hist,
      answer e rq = Ok hist /\ hist <> []
      /\ forallb finite_volume (trim_to_limit limit hist) = true
      /\ candles_try e symbol tf rc iv limit to_ts s
         = (Return tt,
            mk_state (stdout s ++
                      [candles_doc symbol tf
                         (map candle (trim_to_limit limit hist))
                         (next_to_of (trim_to_limit limit hist))])
                     (calls s ++ [rq]))).
Proof.
  unfold candles_try.
  destruct (fetch_history_cases e symbol rc iv to_ts s)
    as [[msg [sent E]] | [rq [hist [Ha E]]]].
  - left. exists msg, sent. now apply bind_raise.
  - rewrite (bind_return _ _ _ _ _ E).
    destruct hist as [|r0 hist0].
    + right. left. exists rq. split; [exact Ha | reflexivity].
    + cbv beta iota. rewrite (bind_return _ _ _ tt _ eq_refl).
      remember (trim_to_limit limit (r0 :: hist0)) as h eqn:Eh.
      set (s1 := mk_state (stdout s) (calls s ++ [rq])).
      destruct (forallb finite_volume h) eqn:Ef.
      * right. right. exists rq, (r0 :: hist0).
        rewrite <- Eh.
        split; [exact Ha|]. split; [discriminate|]. split; [exact Ef|].
        rewrite (bind_return _ _ _ _ _ (iterrows_finite h [] s1 Ef)).
        clear Eh Ef. destruct h as [|r h']; reflexivity.
      * left. destruct (iterrows_not_finite h [] s1 Ef) as [msg Em].
        exists msg, [rq]. now apply bind_raise.
Qed.

(** ** Every run of [candles] *)

Lemma run_candles_cases e args :
  let symbol := upper (args_symbol args) in
  let tf := args_tf args in
  let rc := args_range args in
  let o := run (main e (Candles args)) in
  match int_of_str (args_limit args) with
  | None =>
      o = mk_outcome [] [] 1
            (Some ("invalid literal for int() with base 10: "
                   ++ repr_str (args_limit args)))
  | Some n =>
      match assoc tf TF_TO_YF_INTERVAL with
      | None =>
          o = failed_with ("Invalid timeframe '" ++ tf ++ "'. Allowed: "
                           ++ repr_list (keys TF_TO_YF_INTERVAL)) []
      | Some iv =>
          if has_key rc RANGE_TO_YF_PERIOD
          then
            (exists msg sent,
                o = failed_with ("Candle fetch failed for " ++ symbol
                                 ++ ": " ++ msg) sent)
            \/ (exists rq,
                answer e rq = Ok []
                /\ o = failed_with ("No candle data returned for " ++ symbol
                                    ++ " tf=" ++ tf ++ " range=" ++ rc) [rq])
            \/ (exists rq hist,
                answer e rq = Ok hist /\ hist <> []
                /\ forallb finite_volume
                     (trim_to_limit (Z.min n 2000) hist) = true
                /\ o = mk_outcome
                         [candles_doc symbol tf
                            (map candle (trim_to_limit (Z.min n 2000) hist))
                            (next_to_of (trim_to_limit (Z.min n 2000) hist))]
                         [rq] 0 None)
          else
            o = failed_with ("Invalid range '" ++ rc ++ "'. Allowed: "
                             ++ repr_list (keys RANGE_TO_YF_PERIOD)) []
      end
  end.
Proof.
  cbv zeta. unfold run, main, cmd_candles, int.
  destruct (int_of_str (args_limit args)) as [n|]; [|reflexivity].
  rewrite (bind_return _ _ _ n _ eq_refl).
  unfold getitem.
  destruct (assoc (args_tf args) TF_TO_YF_INTERVAL) as [iv|] eqn:Etf.
  2: { assert (Hk : has_key (args_tf args) TF_TO_YF_INTERVAL = false)
         by (unfold has_key; now rewrite Etf).
       rewrite Hk. reflexivity. }
  assert (Hk : has_key (args_tf args) TF_TO_YF_INTERVAL = true)
    by (unfold has_key; now rewrite Etf).
  rewrite Hk. cbn [negb]. rewrite (bind_return _ _ _ tt _ eq_refl).
  destruct (has_key (args_range args) RANGE_TO_YF_PERIOD); [|reflexivity].
  cbn [negb]. rewrite (bind_return _ _ _ tt _ eq_refl).
  rewrite (bind_return _ _ _ iv _ eq_refl).
  unfold try_except.
  destruct (candles_try_cases e (upper (args_symbol args)) (args_tf args)
              (args_range args) iv (Z.min n 2000) (args_to args)
              (mk_state [] []))
    as [[msg [sent E]] | [[rq [Ha E]] | [rq [hist [Ha [Hne [Hf E]]]]]]];
    rewrite E.
  - left. exists msg, sent. reflexivity.
  - right. left. exists rq. split; [exact Ha | reflexivity].
  - right. right. exists rq, hist. repeat split; assumption.
Qed.

(** ** Every run of [quote] *)

Lemma iloc_last_cons (r : row) (rest : frame) (s : state) :
  iloc_last (r :: rest) s = (Return (List.last (r :: rest) r), s).
Proof.
  unfold iloc_last.
  destruct (exists_last (l := r :: rest) ltac:(discriminate)) as [init [l E]].
  rewrite E, rev_app_distr, last_last. reflexivity.
Qed.

Lemma run_quote_cases e sym :
  let symbol := upper sym in
  let o := run (main e (Quote sym)) in
  let fast := FastInfoLastPrice symbol in
  let daily := HistoryPeriod symbol "1d" None in
  match fast_info_last_price e symbol with
  | Fails msg =>
      o = failed_with ("Quote fetch failed for " ++ symbol ++ ": " ++ msg)
                      [fast]
  | Ok (Some p) =>
      o = mk_outcome [quote_doc symbol (round4 p) (now_utc e)] [fast] 0 None
  | Ok None =>
      match history_period e symbol "1d" None with
      | Fails msg =>
          o = failed_with ("Quote fetch failed for " ++ symbol ++ ": " ++ msg)
                          [fast; daily]
      | Ok [] =>
          o = failed_with ("No quote data found for " ++ symbol) [fast; daily]
      | Ok (r :: rest) =>
          o = mk_outcome
                [quote_doc symbol
                   (round4 (row_Close (List.last (r :: rest) r))) (now_utc e)]
                [fast; daily] 0 None
      end
  end.
Proof.
  cbv zeta. unfold run, main, cmd_quote, try_except, quote_try.
  destruct (fast_info_last_price e (upper sym)) as [[p|]|msg];
    unfold bind, call; [reflexivity| |reflexivity].
  cbn [lift ret].
  destruct (history_period e (upper sym) "1d" None) as [[|r rest]|msg];
    [reflexivity| |reflexivity].
  cbn [lift ret stdout calls]. rewrite iloc_last_cons. reflexivity.
Qed.

(** ** Successful runs of [candles] *)

Lemma candles_success e args :
  exit_code (run (main e (Candles args))) = 0 ->
  exists n rq hist,
    int_of_str (args_limit args) = Some n
    /\ answer e rq = Ok hist /\ hist <> []
    /\ forallb finite_volume (trim_to_limit (Z.min n 2000) hist) = true
    /\ run (main e (Candles args))
       = mk_outcome
           [candles_doc (upper (args_symbol args)) (args_tf args)
              (map candle (trim_to_limit (Z.min n 2000) hist))
              (next_to_of (trim_to_limit (Z.min n 2000) hist))]
           [rq] 0 None.
Proof.
  intros Hexit. pose proof (run_candles_cases e args) as H. cbv zeta in H.
  destruct (int_of_str (args_limit args)) as [n|];
    [|rewrite H in Hexit; discriminate].
  destruct (assoc (args_tf args) TF_TO_YF_INTERVAL);
    [|rewrite H in Hexit; discriminate].
  destruct (has_key (args_range args) RANGE_TO_YF_PERIOD);
    [|rewrite H in Hexit; discriminate].
  destruct H as [[msg [sent E]] | [[rq [_ E]] | [rq [hist [Ha [Hne [Hf E]]]]]]];
    try (rewrite E in Hexit; discriminate).
  exists n, rq, hist. repeat split; assumption.
Qed.

(** ** Trimming *)

Lemma trim_zero (hist : frame) : trim_to_limit 0 hist = hist.
Proof.
  unfold trim_to_limit, iloc_from. destruct hist; reflexivity.
Qed.

Lemma trim_positive (limit : Z) (hist : frame) :
  0 < limit ->
  trim_to_limit limit hist
  = if limit <? Z.of_nat (List.length hist)
    then lastn (Z.to_nat limit) hist else hist.
Proof.
  intros Hpos. unfold trim_to_limit, iloc_from, lastn.
  destruct (limit <? Z.of_nat (List.length hist)) eqn:E; [|reflexivity].
  apply Z.ltb_lt in E.
  destruct (- limit <? 0) eqn:E'; [|apply Z.ltb_ge in E'; lia].
  f_equal. lia.
Qed.

Lemma trim_length (limit : Z) (hist : frame) :
  0 < limit -> Z.of_nat (List.length (trim_to_limit limit hist)) <= limit.
Proof.
  intros Hpos. rewrite trim_positive by assumption.
  destruct (limit <? Z.of_nat (List.length hist)) eqn:E.
  - apply Z.ltb_lt in E. unfold lastn. rewrite length_skipn. lia.
  - apply Z.ltb_ge in E. assumption.
Qed.

(** With a positive limit a successful run emits at most [limit] and at
    most 2000 candles, the most recent ones when the fetch returned more. *)
Lemma positive_limit_bounds_count e args n :
  int_of_str (args_limit args) = Some n -> 0 < n ->
  exit_code (run (main e (Candles args))) = 0 ->
  exists rq hist candles next_to,
    answer e rq = Ok hist
    /\ out_stdout (run (main e (Candles args)))
       = [candles_doc (upper (args_symbol args)) (args_tf args)
            candles next_to]
    /\ Z.of_nat (List.length candles) <= n
    /\ Z.of_nat (List.length candles) <= 2000
    /\ candles
       = map candle
           (if Z.min n 2000 <? Z.of_nat (List.length hist)
            then lastn (Z.to_nat (Z.min n 2000)) hist else hist).
Proof.
  intros Hn Hpos Hexit.
  destruct (candles_success e args Hexit)
    as [n' [rq [hist [Hn' [Ha [_ [_ E]]]]]]].
  rewrite Hn in Hn'. injection Hn' as <-.
  exists rq, hist. eexists. eexists. split; [exact Ha|].
  split; [rewrite E; reflexivity|].
  pose proof (trim_length (Z.min n 2000) hist ltac:(lia)) as Hlen.
  rewrite length_map. repeat split; try lia.
  now rewrite trim_positive by lia.
Qed.

(** ** The request a run sends *)

Lemma run_candles_valid e args n iv :
  int_of_str (args_limit args) = Some n ->
  assoc (args_tf args) TF_TO_YF_INTERVAL = Some iv ->
  has_key (args_range args) RANGE_TO_YF_PERIOD = true ->
  run (main e (Candles args))
  = run (try_except
           (candles_try e (upper (args_symbol args)) (args_tf args)
              (args_range args) iv (Z.min n 2000) (args_to args))
           (fun msg =>
              error_json ("Candle fetch failed for "
                          ++ upper (args_symbol args) ++ ": " ++ msg))).
Proof.
  intros Hn Htf Hrc. unfold run, main, cmd_candles, int, getitem.
  rewrite Hn, Htf, Hrc.
  assert (Hk : has_key (args_tf args) TF_TO_YF_INTERVAL = true)
    by (unfold has_key; now rewrite Htf).
  rewrite Hk. reflexivity.
Qed.

Lemma run_try_calls (m : M unit) (f : string -> string) :
  out_calls (run (try_except m (fun msg => error_json (f msg))))
  = calls (snd (m (mk_state [] []))).
Proof.
  unfold run, try_except.
  destruct (m (mk_state [] [])) as [[[]|[msg|c]] s1]; reflexivity.
Qed.

Lemma iterrows_state (hist : frame) (acc : list json) (s : state) :
  snd (iterrows hist acc s) = s.
Proof.
  destruct (forallb finite_volume hist) eqn:Ef.
  - now rewrite iterrows_finite.
  - destruct (iterrows_not_finite hist acc s Ef) as [msg ->]. reflexivity.
Qed.

Lemma candles_try_sent e symbol tf rc iv limit to_ts (s : state) :
  calls (snd (candles_try e symbol tf rc iv limit to_ts s))
  = calls (snd (fetch_history e symbol rc iv to_ts s)).
Proof.
  unfold candles_try.
  destruct (fetch_history e symbol rc iv to_ts s) as [[hist|x] s1] eqn:E.
  - rewrite (bind_return _ _ _ _ _ E). destruct hist as [|r0 hist0];
      [reflexivity|].
    cbv beta iota. rewrite (bind_return _ _ _ tt _ eq_refl).
    remember (trim_to_limit limit (r0 :: hist0)) as h.
    destruct (forallb finite_volume h) eqn:Ef.
    + rewrite (bind_return _ _ _ _ _ (iterrows_finite h [] s1 Ef)).
      destruct h; reflexivity.
    + destruct (iterrows_not_finite h [] s1 Ef) as [msg Em].
      now rewrite (bind_raise _ _ _ _ _ Em).
  - now rewrite (bind_raise _ _ _ _ _ E).
Qed.

Lemma range_days_tables (rc : string) (days : Z) :
  assoc rc range_days = Some days ->
  has_key rc RANGE_TO_YF_PERIOD = true
  /\ assoc rc RANGE_TO_TIMEDELTA = Some (days * 86400).
Proof.
  unfold has_key. simpl.
  repeat (destruct (String.eqb _ rc);
          [intros [= <-]; split; reflexivity|]).
  discriminate.
Qed.

Lemma fetch_paging_sends e symbol rc iv s x t days (st : state) :
  s <> "" ->
  float_of_str e s = Ok x -> int_of_float x = Ok t ->
  assoc rc range_days = Some days ->
  in_datetime_range t = true ->
  in_datetime_range (t - days * 86400) = true ->
  calls (snd (fetch_history e symbol rc iv (Some s) st))
  = (calls st ++
     [HistoryWindow symbol (strftime_ymd (t - days * 86400))
                    (strftime_ymd t) iv])%list.
Proof.
  intros Hs Hx Ht Hd Hr1 Hr2.
  destruct (range_days_tables rc days Hd) as [_ Hdelta].
  unfold fetch_history. apply String.eqb_neq in Hs. rewrite Hs.
  unfold fetch_paging, bind, lift, fromtimestamp, getitem, datetime_sub.
  rewrite Hx. cbn [ret]. rewrite Ht. cbn [ret]. rewrite Hr1. cbn [ret].
  rewrite Hdelta. cbn [ret]. rewrite Hr2. cbn [ret]. unfold call.
  match goal with |- context [lift ?a] => destruct a end; reflexivity.
Qed.

(** ** Order of the rows *)

Lemma ascending_skipn (k : nat) (hist : frame) :
  ascending hist -> ascending (skipn k hist).
Proof.
  revert hist. induction k as [|k IH]; intros hist H; [exact H|].
  destruct hist as [|r rest]; [exact H|]. simpl. apply IH, H.
Qed.

Lemma ascending_trim (limit : Z) (hist : frame) :
  ascending hist -> ascending (trim_to_limit limit hist).
Proof.
  intros H. unfold trim_to_limit, iloc_from.
  destruct (limit <? _); [apply ascending_skipn|]; exact H.
Qed.

Lemma candle_time (r : row) :
  field "time" (candle r) = Some (JInt (trunc (row_timestamp r))).
Proof. reflexivity. Qed.

(** ** Failures of a run whose limit parses *)

(** An invalid timeframe or range code is rejected before any request,
    with the allowed values in the message. *)
Lemma invalid_code_rejected e args n :
  int_of_str (args_limit args) = Some n ->
  (has_key (args_tf args) TF_TO_YF_INTERVAL = false
   /\ run (main e (Candles args))
      = failed_with
          ("Invalid timeframe '" ++ args_tf args
           ++ "'. Allowed: ['1m', '5m', '15m', '1h', '1d', '1w', '1mo']") [])
  \/ (has_key (args_tf args) TF_TO_YF_INTERVAL = true
      /\ has_key (args_range args) RANGE_TO_YF_PERIOD = false
      /\ run (main e (Candles args))
         = failed_with
             ("Invalid range '" ++ args_range args
              ++ "'. Allowed: ['7d', '30d', '90d', '180d', '1y', '2y']") [])
  \/ (has_key (args_tf args) TF_TO_YF_INTERVAL = true
      /\ has_key (args_range args) RANGE_TO_YF_PERIOD = true).
Proof.
  intros Hn. pose proof (run_candles_cases e args) as H. cbv zeta in H.
  rewrite Hn in H.
  destruct (assoc (args_tf args) TF_TO_YF_INTERVAL) as [iv|] eqn:Etf.
  - assert (Hk : has_key (args_tf args) TF_TO_YF_INTERVAL = true)
      by (unfold has_key; now rewrite Etf).
    rewrite Hk. right.
    destruct (has_key (args_range args) RANGE_TO_YF_PERIOD).
    + right. now split.
    + left. repeat split. exact H.
  - assert (Hk : has_key (args_tf args) TF_TO_YF_INTERVAL = false)
      by (unfold has_key; now rewrite Etf).
    rewrite Hk. left. split; [reflexivity | exact H].
Qed.

(** Whatever the command, if the limit of [candles] parses, the run
    prints exactly one document: the failure object, with exit code 1, or
    a success object, with exit code 0. *)
Lemma failure_is_json e cmd :
  (forall args, cmd = Candles args -> int_of_str (args_limit args) <> None) ->
  let o := run (main e cmd) in
  traceback o = None
  /\ ((exit_code o = 1 /\ exists msg, out_stdout o = [error_doc msg])
      \/ (exit_code o = 0
          /\ exists doc, out_stdout o = [doc]
                         /\ field "ok" doc = Some (JBool true))).
Proof.
  intros Hlimit. cbv zeta. destruct cmd as [sym|args|].
  - pose proof (run_quote_cases e sym) as H. cbv zeta in H.
    destruct (fast_info_last_price e (upper sym)) as [[p|]|msg].
    + rewrite H. split; [reflexivity|]. right. split; [reflexivity|].
      eexists. split; reflexivity.
    + destruct (history_period e (upper sym) "1d" None) as [[|r rest]|msg];
        rewrite H; (split; [reflexivity|]).
      * left. split; [reflexivity|]. eexists. reflexivity.
      * right. split; [reflexivity|]. eexists. split; reflexivity.
      * left. split; [reflexivity|]. eexists. reflexivity.
    + rewrite H. split; [reflexivity|]. left. split; [reflexivity|].
      eexists. reflexivity.
  - pose proof (run_candles_cases e args) as H. cbv zeta in H.
    specialize (Hlimit args eq_refl).
    destruct (int_of_str (args_limit args)) as [n|]; [|contradiction].
    destruct (assoc (args_tf args) TF_TO_YF_INTERVAL).
    2: { rewrite H. split; [reflexivity|]. left. split; [reflexivity|].
         eexists. reflexivity. }
    destruct (has_key (args_range args) RANGE_TO_YF_PERIOD).
    2: { rewrite H. split; [reflexivity|]. left. split; [reflexivity|].
         eexists. reflexivity. }
    destruct H as [[msg [sent E]] | [[rq [_ E]] | [rq [hist [_ [_ [_ E]]]]]]];
      rewrite E; (split; [reflexivity|]).
    + left. split; [reflexivity|]. eexists. reflexivity.
    + left. split; [reflexivity|]. eexists. reflexivity.
    + right. split; [reflexivity|]. eexists. split; reflexivity.
  - split; [reflexivity|]. left. split; [reflexivity|]. eexists. reflexivity.
Qed.

End MarketDataFacts.

(* ===================================================================== *)
(** * fetchmarketdata.py: the specification's statements *)
(* ===================================================================== *)

Module MarketDataClaims.
Import Py MarketData MarketDataSpec MarketDataFacts.
Local Arguments String.eqb : simpl never.

(** ** Paging window *)

(** X27. What paging mode sends. With valid timeframe and range codes,
    a limit that parses and a pivot [to] (a non-empty string that
    [int(float(.))] reads as [t] unix seconds, [t] and [t] minus the
    duration lying in [datetime]'s range), the only request sent to the
    provider is for the window whose end is the UTC calendar date of the
    pivot, its time of day dropped, and whose start is the calendar date
    of the pivot minus the duration of the range code (7d, 30d, 90d, 180d,
    1y, 2y giving 7, 30, 90, 180, 365, 730 days): the date that many days
    before the end date. *)
Theorem paging_window_dates e args n s x t days :
  int_of_str (args_limit args) = Some n ->
  has_key (args_tf args) TF_TO_YF_INTERVAL = true ->
  assoc (args_range args) range_days = Some days ->
  args_to args = Some s -> s <> "" ->
  float_of_str e s = Ok x -> int_of_float x = Ok t ->
  in_datetime_range t = true ->
  in_datetime_range (t - days * 86400) = true ->
  exists interval,
    assoc (args_tf args) TF_TO_YF_INTERVAL = Some interval
    /\ out_calls (run (main e (Candles args)))
       = [HistoryWindow (upper (args_symbol args))
            (strftime_ymd (t - days * 86400)) (strftime_ymd t) interval]
    /\ strftime_ymd t = strftime_ymd (epoch_day t * 86400)
    /\ strftime_ymd (t - days * 86400)
       = strftime_ymd ((epoch_day t - days) * 86400).
Proof.
  intros Hn Htf Hd Hto Hs Hx Ht Hr1 Hr2.
  apply has_key_assoc in Htf as [iv Hiv]. exists iv. split; [exact Hiv|].
  destruct (range_days_tables _ _ Hd) as [Hrc _].
  split; [|split].
  - rewrite (run_candles_valid e args n iv Hn Hiv Hrc).
    rewrite run_try_calls, candles_try_sent, Hto.
    now rewrite (fetch_paging_sends e _ _ iv s x t days _ Hs Hx Ht Hd Hr1 Hr2).
  - apply PyFacts.strftime_ymd_day. unfold epoch_day.
    now rewrite Z.div_mul by lia.
  - apply PyFacts.strftime_ymd_day. rewrite PyFacts.epoch_day_sub.
    unfold epoch_day at 2. now rewrite Z.div_mul by lia.
Qed.

Lemma paging_window_dates_witness :
  exists interval,
    assoc "1d" TF_TO_YF_INTERVAL = Some interval
    /\ out_calls (run (main Scenarios.amd
                         (Candles (mk_args "amd" "1d" "7d" "500"
                                           (Some "1700000000")))))
       = [HistoryWindow "AMD" (strftime_ymd (1700000000 - 7 * 86400))
                        (strftime_ymd 1700000000) interval]
    /\ strftime_ymd 1700000000 = strftime_ymd (epoch_day 1700000000 * 86400)
    /\ strftime_ymd (1700000000 - 7 * 86400)
       = strftime_ymd ((epoch_day 1700000000 - 7) * 86400).
Proof.
  apply (paging_window_dates Scenarios.amd
           (mk_args "amd" "1d" "7d" "500" (Some "1700000000"))
           500 "1700000000" (Fin (inject_Z 1700000000)) 1700000000 7);
    try reflexivity.
  discriminate.
Defined.

(** C1, at the failing input [--to 86399] (1970-01-01 23:59:59 UTC) with
    range 7d: the provider is asked for the window from 1969-12-25 to
    1970-01-01, whose end is midnight, 86399 seconds before the pivot, and
    not the window ending at the pivot; the pivot 0 leads to the very same
    request. *)
Lemma pivot_time_of_day_dropped :
  let at_pivot p :=
    out_calls (run (main Scenarios.amd
                      (Candles (mk_args "AMD" "1d" "7d" "500" (Some p))))) in
  at_pivot "86399" = [HistoryWindow "AMD" "1969-12-25" "1970-01-01" "1d"]
  /\ at_pivot "0" = at_pivot "86399"
  /\ ~ window_at_pivot (HistoryWindow "AMD" "1969-12-25" "1970-01-01" "1d")
                       86399 (7 * 86400).
Proof.
  cbv zeta. split; [vm_compute; reflexivity|].
  split; [vm_compute; reflexivity|].
  unfold window_at_pivot. intros [H _]. vm_compute in H. discriminate H.
Qed.

(** ** Candle limit *)

(** C2, at the failing input [--limit 0]: a run that succeeds emits every
    bar the provider returned, at least one, where a limit of 0 allows
    none. *)
Theorem limit_zero_returns_every_bar e args :
  int_of_str (args_limit args) = Some 0 ->
  exit_code (run (main e (Candles args))) = 0 ->
  exists rq hist,
    answer e rq = Ok hist
    /\ out_stdout (run (main e (Candles args)))
       = [candles_doc (upper (args_symbol args)) (args_tf args)
            (map candle hist) (next_to_of hist)]
    /\ (0 < List.length (map candle hist))%nat.
Proof.
  intros Hn Hexit.
  destruct (candles_success e args Hexit)
    as [n [rq [hist [Hn' [Ha [Hne [_ E]]]]]]].
  rewrite Hn in Hn'. injection Hn' as <-.
  exists rq, hist. split; [exact Ha|].
  change (Z.min 0 2000) with 0 in E. rewrite trim_zero in E.
  split; [now rewrite E|].
  rewrite length_map. destruct hist; [contradiction|simpl; lia].
Qed.

Lemma limit_zero_returns_every_bar_witness :
  exists rq hist,
    answer Scenarios.amd rq = Ok hist
    /\ out_stdout (run (main Scenarios.amd
                          (Candles (mk_args "amd" "1d" "180d" "0" None))))
       = [candles_doc "AMD" "1d" (map candle hist) (next_to_of hist)]
    /\ (0 < List.length (map candle hist))%nat.
Proof.
  apply (limit_zero_returns_every_bar Scenarios.amd
           (mk_args "amd" "1d" "180d" "0" None)); reflexivity.
Defined.

(** ** nextTo *)

(** C3, as amended. A successful [candles] run prints one document
    whose [nextTo] is the [time] of the first element of its [candles];
    when [candles] is empty the key [nextTo] is present and holds null
    (Python's [None]); when the provider's rows are ascending by time, no
    candle of the document is earlier. *)
Theorem next_to_is_first_candle e args :
  exit_code (run (main e (Candles args))) = 0 ->
  exists doc candles,
    out_stdout (run (main e (Candles args))) = [doc]
    /\ field "candles" doc = Some (JList candles)
    /\ match candles with
       | [] => field "nextTo" doc = Some JNull
       | c :: _ =>
           exists t,
             field "time" c = Some (JInt t)
             /\ field "nextTo" doc = Some (JInt t)
             /\ (ascending_provider e ->
                 forall c' t',
                   In c' candles -> field "time" c' = Some (JInt t') ->
                   t <= t')
       end.
Proof.
  intros Hexit.
  destruct (candles_success e args Hexit)
    as [n [rq [hist [_ [Ha [_ [_ E]]]]]]].
  rewrite E. cbn [out_stdout].
  remember (trim_to_limit (Z.min n 2000) hist) as h eqn:Eh.
  exists (candles_doc (upper (args_symbol args)) (args_tf args)
            (map candle h) (next_to_of h)), (map candle h).
  split; [reflexivity|]. split; [reflexivity|].
  destruct h as [|r h']; [reflexivity|].
  cbn [map]. exists (trunc (row_timestamp r)).
  split; [reflexivity|]. split; [reflexivity|].
  intros Hasc c' t' Hin Ht'.
  assert (Hh : ascending (r :: h')).
  { rewrite Eh. apply ascending_trim. exact (Hasc rq hist Ha). }
  destruct Hin as [<- | Hin].
  - rewrite candle_time in Ht'. injection Ht' as <-. lia.
  - apply in_map_iff in Hin as [r' [<- Hr']].
    rewrite candle_time in Ht'. injection Ht' as <-.
    apply PyFacts.trunc_monotone. apply (proj1 Hh). exact Hr'.
Qed.

Lemma next_to_is_first_candle_witness :
  exists doc candles,
    out_stdout (run (main Scenarios.amd
                       (Candles (mk_args "amd" "1d" "180d" "2" None))))
    = [doc]
    /\ field "candles" doc = Some (JList candles)
    /\ match candles with
       | [] => field "nextTo" doc = Some JNull
       | c :: _ =>
           exists t,
             field "time" c = Some (JInt t)
             /\ field "nextTo" doc = Some (JInt t)
             /\ (ascending_provider Scenarios.amd ->
                 forall c' t',
                   In c' candles -> field "time" c' = Some (JInt t') ->
                   t <= t')
       end.
Proof.
  apply (next_to_is_first_candle Scenarios.amd
           (mk_args "amd" "1d" "180d" "2" None)).
  reflexivity.
Defined.

(** C3 as worded fails: with [--limit -5] and three bars the run
    succeeds with no candles, and the document still has the key
    [nextTo], holding null; the key is not absent. *)
Lemma next_to_present_without_candles :
  let o := run (main Scenarios.amd
                     (Candles (mk_args "AMD" "1d" "180d" "-5" None))) in
  exit_code o = 0
  /\ exists doc,
       out_stdout o = [doc]
       /\ field "candles" doc = Some (JList [])
       /\ field "nextTo" doc = Some JNull
       /\ field "nextTo" doc <> None.
Proof.
  cbv zeta. split; [reflexivity|]. eexists.
  split; [reflexivity|]. split; [reflexivity|]. split; [reflexivity|].
  discriminate.
Qed.

(** ** Failures *)

(** C4, at the failing inputs: when [--limit] is not an integer literal,
    whatever the other arguments, nothing is printed on stdout; the
    [ValueError] of [int] leaves the interpreter with a traceback and exit
    code 1. *)
Theorem malformed_limit_prints_no_json e args :
  int_of_str (args_limit args) = None ->
  run (main e (Candles args))
  = mk_outcome [] [] 1
      (Some ("invalid literal for int() with base 10: "
             ++ repr_str (args_limit args))).
Proof.
  intros Hn. pose proof (run_candles_cases e args) as H. cbv zeta in H.
  now rewrite Hn in H.
Qed.

Lemma malformed_limit_prints_no_json_witness :
  run (main Scenarios.amd (Candles (mk_args "AMD" "1d" "180d" "abc" None)))
  = mk_outcome [] [] 1
      (Some ("invalid literal for int() with base 10: " ++ repr_str "abc")).
Proof.
  apply (malformed_limit_prints_no_json Scenarios.amd
           (mk_args "AMD" "1d" "180d" "abc" None)).
  reflexivity.
Defined.

(** C5, at a failing input: with the invalid timeframe [2h] and the
    limit [abc], no failure object is printed; the run ends in the
    traceback of [int] before the timeframe is looked at. *)
Theorem invalid_timeframe_after_malformed_limit e :
  run (main e (Candles (mk_args "AMD" "2h" "180d" "abc" None)))
  = mk_outcome [] [] 1
      (Some "invalid literal for int() with base 10: 'abc'").
Proof. reflexivity. Qed.

(** ** Quote fallback *)

(** C6, as amended. When the fast price is [None] and the daily history
    is not empty, the run prints the success object whose price is the
    last daily close rounded to four decimal places. *)
Theorem quote_fallback_rounds_last_close e sym init last :
  fast_info_last_price e (upper sym) = Ok None ->
  history_period e (upper sym) "1d" None = Ok (init ++ [last])%list ->
  run (main e (Quote sym))
  = mk_outcome
      [quote_doc (upper sym) (round4 (row_Close last)) (now_utc e)]
      [FastInfoLastPrice (upper sym); HistoryPeriod (upper sym) "1d" None]
      0 None.
Proof.
  intros Hfast Hhist.
  pose proof (run_quote_cases e sym) as H. cbv zeta in H.
  rewrite Hfast, Hhist in H.
  destruct (init ++ [last])%list as [|r rest] eqn:E.
  - destruct init; discriminate.
  - rewrite H. rewrite <- E, last_last. reflexivity.
Qed.

Lemma quote_fallback_rounds_last_close_witness :
  run (main Scenarios.amd (Quote "amd"))
  = mk_outcome
      [quote_doc "AMD" (round4 (Fin 191)) (now_utc Scenarios.amd)]
      [FastInfoLastPrice "AMD"; HistoryPeriod "AMD" "1d" None]
      0 None.
Proof.
  apply (quote_fallback_rounds_last_close Scenarios.amd "amd"
           [Scenarios.bar 1699920000 (1#3) 100;
            Scenarios.bar 1700006400 (12448563 # 65536) 200]
           (Scenarios.bar 1700092800 191 300));
    reflexivity.
Defined.

(** C6 as worded fails: with the last daily close at the double
    189.9499969482421875 the price printed is 189.95, another number. *)
Lemma quote_price_differs_from_close :
  let close := Fin (12448563 # 65536) in
  let e := Scenarios.provider [Scenarios.bar 1700006400 (12448563 # 65536) 200] in
  exists price,
    out_stdout (run (main e (Quote "AMD")))
    = [quote_doc "AMD" price (now_utc e)]
    /\ same_number price (Fin (18995 # 100))
    /\ ~ same_number price close.
Proof.
  cbv zeta. eexists. split; [reflexivity|].
  split; [reflexivity|].
  unfold same_number, round4. cbn [row_Close Scenarios.bar].
  intros H. vm_compute in H. discriminate H.
Qed.

End MarketDataClaims.

(* ===================================================================== *)
(** * fetch_news.py: workers and schedules *)
(* ===================================================================== *)

Module TechReportFacts.
Import Py PySpec TechReport TechReportSpec.
Local Arguments String.eqb : simpl never.

(** ** The filter *)

Lemma is_relevant_spec (keywords : list string) (item : news_item) :
  is_relevant keywords item = true
  <-> exists k, In k keywords /\ substring (upper k) (combined_text item).
Proof.
  unfold is_relevant. rewrite existsb_exists.
  split; intros [k [Hin Hk]]; exists k; (split; [exact Hin|]);
    now apply PyFacts.contains_spec.
Qed.

(** ** The loop *)

Lemma firstn_filter_cons_true {A} (p : A -> bool) (x : A) (l : list A) (n : nat) :
  p x = true ->
  firstn (S n) (filter p (x :: l)) = x :: firstn n (filter p l).
Proof. intros H. simpl. now rewrite H. Qed.

Lemma news_loop_spec e keywords items :
  forall st (k : nat),
    (k < 5)%nat ->
    count st = Z.of_nat k ->
    let collected := firstn (5 - k) (filter (is_relevant keywords) items) in
    let st' := news_loop e keywords items st in
    headlines st' = (headlines st ++ map (headline e) collected)%list
    /\ count st' = Z.of_nat (k + List.length collected)
    /\ total_score st'
       = fold_left (fadd e) (map (score_of e) collected) (total_score st)
    /\ exists examined,
         items = (examined ++ unread st')%list
         /\ filter (is_relevant keywords) examined = collected
         /\ (count st' = 5 ->
             exists before last,
               examined = (before ++ [last])%list
               /\ is_relevant keywords last = true)
         /\ (count st' < 5 -> unread st' = []).
Proof.
  induction items as [|item rest IH]; intros st k Hk Hc; cbv zeta.
  - simpl. rewrite firstn_nil. simpl. rewrite app_nil_r, Nat.add_0_r.
    repeat split; try assumption.
    exists []. repeat split. intros H. lia.
  - cbn [news_loop filter].
    destruct (is_relevant keywords item) eqn:Erel.
    + cbn [count headlines total_score unread].
      replace (5 - k)%nat with (S (4 - k)) by lia. cbn [firstn].
      destruct (5 <=? count st + 1) eqn:E5.
      * apply Z.leb_le in E5. assert (k = 4%nat) by lia. subst k.
        cbn [Nat.sub firstn map List.length headlines count total_score
             unread fold_left].
        repeat split; try (rewrite Hc; reflexivity).
        exists [item]. cbn [filter app]. rewrite Erel.
        repeat split.
        -- intros _. exists [], item. now split.
        -- intros H. lia.
      * apply Z.leb_gt in E5.
        specialize (IH (mk_loop (headlines st ++ [headline e item])
                                (fadd e (total_score st)
                                   (get_sentiment_score e (item_title item)))
                                (count st + 1) rest) (S k)
                       ltac:(lia) ltac:(cbn [count]; lia)).
        cbv zeta in IH. replace (5 - S k)%nat with (4 - k)%nat in IH by lia.
        cbn [headlines total_score count] in IH.
        destruct IH as [Hh [Hcount [Htotal [examined [Hitems [Hfil [H5 Hlt]]]]]]].
        split; [rewrite Hh, <- app_assoc; reflexivity|].
        split; [rewrite Hcount; cbn [List.length]; lia|].
        split; [rewrite Htotal; reflexivity|].
        exists (item :: examined). split; [cbn [app]; now rewrite <- Hitems|].
        split; [cbn [filter]; now rewrite Erel, Hfil|].
        split; [|exact Hlt].
        intros H. destruct (H5 H) as [before [last [-> Hl]]].
        exists (item :: before), last. now split.
    + destruct (5 <=? count (mk_loop (headlines st) (total_score st)
                                     (count st) rest)) eqn:E5.
      * apply Z.leb_le in E5. cbn [count] in E5. lia.
      * specialize (IH (mk_loop (headlines st) (total_score st) (count st) rest)
                       k Hk Hc).
        cbv zeta in IH. cbn [headlines total_score count] in IH.
        destruct IH as [Hh [Hcount [Htotal [examined [Hitems [Hfil [H5 Hlt]]]]]]].
        repeat split; try assumption.
        exists (item :: examined). split; [cbn [app]; now rewrite <- Hitems|].
        split; [cbn [filter]; now rewrite Erel|].
        split; [|exact Hlt].
        intros H. destruct (H5 H) as [before [last [-> Hl]]].
        exists (item :: before), last. now split.
Qed.

(** ** Schedules *)

Lemma assign_commute (g : globals) (a b : write) :
  writes_rsi a -> writes_news b ->
  assign (assign g b) a = assign (assign g a) b.
Proof. destruct a, b; simpl; intros; try contradiction; reflexivity. Qed.

Lemma fold_assign_commute (a : list write) (b : write) :
  Forall writes_rsi a -> writes_news b ->
  forall g, fold_left assign a (assign g b) = assign (fold_left assign a g) b.
Proof.
  intros Ha Hb. induction Ha as [|w a Hw Ha IH]; intros g; [reflexivity|].
  simpl. rewrite assign_commute by assumption. apply IH.
Qed.

(** The two workers write different globals: every schedule leaves the
    globals as if worker 1 had run to its end before worker 2. *)
Lemma schedule_irrelevant (a b c : list write) :
  interleaving a b c ->
  Forall writes_rsi a -> Forall writes_news b ->
  forall g, fold_left assign c g = fold_left assign (a ++ b)%list g.
Proof.
  induction 1 as [|w a b c H IH|w a b c H IH]; intros Ha Hb g.
  - reflexivity.
  - simpl. apply IH; [now inversion Ha | assumption].
  - simpl. rewrite IH by (assumption || now inversion Hb).
    rewrite !fold_left_app. simpl.
    rewrite fold_assign_commute by (assumption || now inversion Hb).
    reflexivity.
Qed.

Lemma get_rsi_data_writes e symbol :
  exists x, get_rsi_data e symbol = [SetRsi x].
Proof.
  unfold get_rsi_data.
  destruct (history_1mo_Close e symbol) as [[|c hist]|msg];
    try (eexists; reflexivity).
  destruct (rsi_14_last e (c :: hist)); eexists; reflexivity.
Qed.

Lemma get_news_data_writes e symbol :
  Forall writes_news (get_news_data e symbol).
Proof.
  unfold get_news_data.
  destruct (news_try e symbol) as [[text sentiment]|msg];
    repeat constructor.
Qed.

(** Worker 1 stores the sentinel or the value the indicator returned
    for a history that is not empty. *)
Lemma get_rsi_data_value e symbol :
  get_rsi_data e symbol = [SetRsi (Fin (-1))]
  \/ exists hist x,
       history_1mo_Close e symbol = Ok hist /\ hist <> []
       /\ rsi_14_last e hist = Ok x
       /\ get_rsi_data e symbol = [SetRsi x].
Proof.
  unfold get_rsi_data.
  destruct (history_1mo_Close e symbol) as [[|c hist]|msg]; auto.
  destruct (rsi_14_last e (c :: hist)) as [x|msg] eqn:E; auto.
  right. exists (c :: hist), x. repeat split; [discriminate | exact E].
Qed.

End TechReportFacts.

(* ===================================================================== *)
(** * fetch_news.py: the specification's statements *)
(* ===================================================================== *)

Module TechReportClaims.
Import Py PySpec TechReport TechReportSpec TechReportFacts.
Local Arguments String.eqb : simpl never.

(** ** News filter and the five-item cap *)




(** ** Failure of the news worker *)

(** C9. When the [try] block of the news worker raises, the worker's
    only assignment stores the error string in [result_news]; under every
    schedule of the two threads [result_sentiment] still holds its initial
    0.0, and the report shows [SENTIMENT:    0.00 [NEUTRAL]] above the
    error text. *)
Theorem news_failure_keeps_sentiment e prog arg rest msg :
  news_try e (upper arg) = Fails msg ->
  get_news_data e (upper arg) = [SetNews ("Error: " ++ msg)]
  /\ (forall schedule,
        interleaving (get_rsi_data e (upper arg))
                     (get_news_data e (upper arg)) schedule ->
        result_news (joined schedule) = "Error: " ++ msg
        /\ result_sentiment (joined schedule) = Fin 0)
  /\ (forall lines,
        main_prints e (prog :: arg :: rest) lines ->
        exists rsi_line,
          lines = [ "--- TECHNICAL REPORT (" ++ upper arg ++ ") ---";
                    rsi_line;
                    "SENTIMENT:    0.00 [NEUTRAL]";
                    "------------------------------";
                    "TOP NEWS HEADLINES:";
                    "Error: " ++ msg ]).
Proof.
  intros Hfail.
  assert (Hnews : get_news_data e (upper arg) = [SetNews ("Error: " ++ msg)])
    by (unfold get_news_data; now rewrite Hfail).
  destruct (get_rsi_data_writes e (upper arg)) as [x Hrsi].
  assert (Hj : forall schedule,
             interleaving (get_rsi_data e (upper arg))
                          (get_news_data e (upper arg)) schedule ->
             joined schedule = mk_globals x ("Error: " ++ msg) (Fin 0)).
  { intros schedule Hil. unfold joined.
    rewrite (schedule_irrelevant _ _ _ Hil).
    - rewrite Hrsi, Hnews. reflexivity.
    - rewrite Hrsi. repeat constructor.
    - apply get_news_data_writes. }
  split; [exact Hnews|]. split.
  - intros schedule Hil. rewrite (Hj schedule Hil). split; reflexivity.
  - intros lines [schedule [Hil ->]]. rewrite (Hj schedule Hil).
    eexists. reflexivity.
Qed.

Lemma news_failure_keeps_sentiment_witness :
  let e := ReportScenarios.report_provider
             (Fails "HTTP Error 429: Too Many Requests")
             (Ok (Some "Advanced Micro Devices, Inc.")) in
  let msg := "HTTP Error 429: Too Many Requests" in
  get_news_data e (upper "amd") = [SetNews ("Error: " ++ msg)]
  /\ (forall schedule,
        interleaving (get_rsi_data e (upper "amd"))
                     (get_news_data e (upper "amd")) schedule ->
        result_news (joined schedule) = "Error: " ++ msg
        /\ result_sentiment (joined schedule) = Fin 0)
  /\ (forall lines,
        main_prints e ["fetch_news.py"; "amd"] lines ->
        exists rsi_line,
          lines = [ "--- TECHNICAL REPORT (" ++ upper "amd" ++ ") ---";
                    rsi_line;
                    "SENTIMENT:    0.00 [NEUTRAL]";
                    "------------------------------";
                    "TOP NEWS HEADLINES:";
                    "Error: " ++ msg ]).
Proof.
  apply (news_failure_keeps_sentiment
           (ReportScenarios.report_provider
              (Fails "HTTP Error 429: Too Many Requests")
              (Ok (Some "Advanced Micro Devices, Inc.")))
           "fetch_news.py" "amd" [] "HTTP Error 429: Too Many Requests").
  reflexivity.
Defined.

(** ** An RSI that is not a number *)

(** C8, at the failing input: when the history is not empty and the
    indicator returns NaN (as it does for fewer closes than its window of
    14), worker 1 stores NaN, which is neither in the interval from 0 to
    100 nor the sentinel -1.0, and every report shows
    [RSI (14-day): nan [NEUTRAL]]. *)
Theorem nan_rsi_reaches_report e prog arg rest hist :
  history_1mo_Close e (upper arg) = Ok hist -> hist <> [] ->
  rsi_14_last e hist = Ok Nan ->
  get_rsi_data e (upper arg) = [SetRsi Nan]
  /\ ~ rsi_as_specified Nan
  /\ (forall schedule,
        interleaving (get_rsi_data e (upper arg))
                     (get_news_data e (upper arg)) schedule ->
        result_rsi (joined schedule) = Nan)
  /\ (forall lines,
        main_prints e (prog :: arg :: rest) lines ->
        nth 1 lines "" = "RSI (14-day): nan [NEUTRAL]").
Proof.
  intros Hh Hne Hr.
  assert (Hx : get_rsi_data e (upper arg) = [SetRsi Nan]).
  { unfold get_rsi_data. rewrite Hh.
    destruct hist; [contradiction|]. now rewrite Hr. }
  assert (Hj : forall schedule,
             interleaving (get_rsi_data e (upper arg))
                          (get_news_data e (upper arg)) schedule ->
             result_rsi (joined schedule) = Nan).
  { assert (Hg : forall ws g, Forall writes_news ws ->
              result_rsi (fold_left assign ws g) = result_rsi g).
    { induction ws as [|w ws IH]; intros g Hws; [reflexivity|].
      inversion Hws as [|? ? Hw Hrest]; subst. cbn [fold_left].
      rewrite IH by assumption.
      destruct w; [contradiction | reflexivity | reflexivity]. }
    intros schedule Hil. unfold joined.
    rewrite (schedule_irrelevant _ _ _ Hil).
    - rewrite Hx, fold_left_app, Hg by apply get_news_data_writes.
      reflexivity.
    - rewrite Hx. repeat constructor.
    - apply get_news_data_writes. }
  split; [exact Hx|]. split; [intros []|]. split; [exact Hj|].
  intros lines [schedule [Hil ->]]. cbn [report nth].
  now rewrite (Hj schedule Hil).
Qed.

Lemma nan_rsi_reaches_report_witness :
  let e := ReportScenarios.recently_listed in
  get_rsi_data e (upper "newco") = [SetRsi Nan]
  /\ ~ rsi_as_specified Nan
  /\ (forall schedule,
        interleaving (get_rsi_data e (upper "newco"))
                     (get_news_data e (upper "newco")) schedule ->
        result_rsi (joined schedule) = Nan)
  /\ (forall lines,
        main_prints e ["fetch_news.py"; "newco"] lines ->
        nth 1 lines "" = "RSI (14-day): nan [NEUTRAL]").
Proof.
  apply (nan_rsi_reaches_report ReportScenarios.recently_listed
           "fetch_news.py" "newco" [] ReportScenarios.thirteen_closes).
  - reflexivity.
  - discriminate.
  - reflexivity.
Defined.

(** ** A short name without words *)

(** C10. When the news and the short name are fetched and the short name
    (the empty string when the entry is missing) has no word, taking the
    first word raises before the loop: whatever the news items are, the
    worker's only effect is to store the error string
    [Error: list index out of range] in [result_news]. *)
Theorem blank_short_name_fails e symbol items name :
  news e symbol = Ok items ->
  info_shortName e symbol = Ok name ->
  all_blank (get name "") = true ->
  news_try e symbol = Fails "list index out of range"
  /\ get_news_data e symbol = [SetNews "Error: list index out of range"].
Proof.
  intros Hnews Hinfo Hblank.
  assert (H : news_try e symbol = Fails "list index out of range").
  { unfold news_try.
    now rewrite Hnews, Hinfo, (PyFacts.split_all_blank _ Hblank). }
  split; [exact H|]. unfold get_news_data. now rewrite H.
Qed.

Lemma blank_short_name_fails_witness :
  let e := ReportScenarios.report_provider (Ok ReportScenarios.feed) (Ok (Some "")) in
  (is_relevant ["AMD"] (hd (mk_item None) ReportScenarios.feed) = true)
  /\ news_try e "AMD" = Fails "list index out of range"
  /\ get_news_data e "AMD" = [SetNews "Error: list index out of range"].
Proof.
  split; [reflexivity|].
  apply (blank_short_name_fails
           (ReportScenarios.report_provider (Ok ReportScenarios.feed) (Ok (Some "")))
           "AMD" ReportScenarios.feed (Some ""));
    reflexivity.
Defined.

End TechReportClaims.

(* ===================================================================== *)
(** * fetchmarketdata.py: further properties *)
(* ===================================================================== *)

Module MarketDataMore.
Import Py MarketData MarketDataSpec MarketDataFacts.
Local Open Scope py_scope.
Local Arguments String.eqb : simpl never.

(** ** Helper lemmas *)

Lemma upper_char_idempotent (c : ascii) :
  upper_char (upper_char c) = upper_char c.
Proof. destruct c as [[] [] [] [] [] [] [] []]; reflexivity. Qed.

Lemma upper_idempotent (s : string) : upper (upper s) = upper s.
Proof.
  induction s as [|c s IH]; [reflexivity|].
  cbn [upper]. now rewrite upper_char_idempotent, IH.
Qed.

Lemma standard_fetch e symbol rc iv to_ts period (s : state) :
  to_ts = None \/ to_ts = Some "" ->
  assoc rc RANGE_TO_YF_PERIOD = Some period ->
  fetch_history e symbol rc iv to_ts s
  = call (HistoryPeriod symbol period (Some iv))
         (history_period e symbol period (Some iv)) s.
Proof.
  intros [-> | ->] Hp; unfold fetch_history; cbn [String.eqb];
    unfold fetch_standard, getitem; rewrite Hp; reflexivity.
Qed.

Lemma iterrows_not_finite_msg (hist : frame) (acc : list json) (s : state) :
  forallb finite_volume hist = false ->
  exists msg,
    (msg = "cannot convert float NaN to integer"
     \/ msg = "cannot convert float infinity to integer")
    /\ iterrows hist acc s = (Raise (Exception msg), s).
Proof.
  revert acc. induction hist as [|r rest IH]; intros acc H; simpl in *.
  - discriminate.
  - unfold bind at 1. unfold candle_of_row, finite_volume in *.
    destruct (row_Volume r) eqn:Ev; simpl in *.
    + unfold bind, ret. simpl. apply IH. assumption.
    + eexists. split; [left; reflexivity | reflexivity].
    + eexists. split; [right; reflexivity | reflexivity].
Qed.

(** A run in standard mode, case by case on the provider's answer. *)
Lemma run_standard e args n iv period :
  int_of_str (args_limit args) = Some n ->
  assoc (args_tf args) TF_TO_YF_INTERVAL = Some iv ->
  assoc (args_range args) RANGE_TO_YF_PERIOD = Some period ->
  args_to args = None \/ args_to args = Some "" ->
  let symbol := upper (args_symbol args) in
  let rq := HistoryPeriod symbol period (Some iv) in
  let o := run (main e (Candles args)) in
  match history_period e symbol period (Some iv) with
  | Fails msg =>
      o = failed_with ("Candle fetch failed for " ++ symbol ++ ": " ++ msg)
                      [rq]
  | Ok [] =>
      o = failed_with ("No candle data returned for " ++ symbol ++ " tf="
                       ++ args_tf args ++ " range=" ++ args_range args) [rq]
  | Ok hist =>
      let kept := trim_to_limit (Z.min n 2000) hist in
      if forallb finite_volume kept
      then o = mk_outcome
                 [candles_doc symbol (args_tf args) (map candle kept)
                              (next_to_of kept)] [rq] 0 None
      else exists msg,
          (msg = "cannot convert float NaN to integer"
           \/ msg = "cannot convert float infinity to integer")
          /\ o = failed_with ("Candle fetch failed for " ++ symbol ++ ": "
                             ++ msg) [rq]
  end.
Proof.
  intros Hn Htf Hp Hto. cbv zeta.
  assert (Hrc : has_key (args_range args) RANGE_TO_YF_PERIOD = true)
    by (unfold has_key; now rewrite Hp).
  rewrite (run_candles_valid e args n iv Hn Htf Hrc).
  unfold run, try_except, candles_try.
  set (s0 := mk_state [] []).
  pose proof (standard_fetch e (upper (args_symbol args)) (args_range args)
                iv (args_to args) period s0 Hto Hp) as Hf.
  unfold call in Hf.
  destruct (history_period e (upper (args_symbol args)) period (Some iv))
    as [hist|msg].
  - cbn [lift ret] in Hf. rewrite (bind_return _ _ _ _ _ Hf).
    destruct hist as [|r0 hist0]; [reflexivity|].
    cbv beta iota. rewrite (bind_return _ _ _ tt _ eq_refl).
    remember (trim_to_limit (Z.min n 2000) (r0 :: hist0)) as kept.
    destruct (forallb finite_volume kept) eqn:Ef.
    + rewrite (bind_return _ _ _ _ _ (iterrows_finite kept [] _ Ef)).
      destruct kept; reflexivity.
    + destruct (iterrows_not_finite_msg kept [] (mk_state [] (calls s0 ++
          [HistoryPeriod (upper (args_symbol args)) period (Some iv)])) Ef)
        as [msg [Hmsg Em]].
      exists msg. split; [exact Hmsg|].
      now rewrite (bind_raise _ _ _ _ _ Em).
  - cbn [lift raise] in Hf. now rewrite (bind_raise _ _ _ _ _ Hf).
Qed.

Lemma fetch_history_sent e symbol rc iv to_ts (s : state) :
  exists sent,
    calls (snd (fetch_history e symbol rc iv to_ts s))
    = (calls s ++ sent)%list
    /\ (sent = []
        \/ (exists period, sent = [HistoryPeriod symbol period (Some iv)])
        \/ (exists start end_,
               sent = [HistoryWindow symbol start end_ iv]
               /\ exists t, to_ts = Some t /\ t <> "")).
Proof.
  assert (Hstd : exists sent,
    calls (snd (fetch_standard e symbol rc iv s)) = (calls s ++ sent)%list
    /\ (sent = []
        \/ (exists period, sent = [HistoryPeriod symbol period (Some iv)])
        \/ (exists start end_,
               sent = [HistoryWindow symbol start end_ iv]
               /\ exists t, to_ts = Some t /\ t <> ""))).
  { unfold fetch_standard, bind, getitem.
    destruct (assoc rc RANGE_TO_YF_PERIOD) as [period|].
    - unfold ret, call. exists [HistoryPeriod symbol period (Some iv)].
      split; [|right; left; now exists period].
      destruct (history_period e symbol period (Some iv)); reflexivity.
    - exists []. split; [|now left]. simpl. now rewrite app_nil_r. }
  unfold fetch_history. destruct to_ts as [t|]; [|exact Hstd].
  destruct (String.eqb t "") eqn:Et; [exact Hstd|].
  apply String.eqb_neq in Et.
  assert (Hnone : forall x : exn, exists sent,
    calls (snd (@raise frame x s)) = (calls s ++ sent)%list
    /\ (sent = []
        \/ (exists period, sent = [HistoryPeriod symbol period (Some iv)])
        \/ (exists start end_,
               sent = [HistoryWindow symbol start end_ iv]
               /\ exists t0, Some t = Some t0 /\ t0 <> ""))).
  { intros x. exists []. split; [|now left]. simpl. now rewrite app_nil_r. }
  unfold fetch_paging, bind, lift.
  destruct (float_of_str e t) as [x|msg]; unfold ret; [|apply Hnone].
  destruct (int_of_float x) as [to_unix|msg]; [|apply Hnone].
  unfold fromtimestamp.
  destruct (in_datetime_range to_unix); unfold ret; [|apply Hnone].
  unfold getitem.
  destruct (assoc rc RANGE_TO_TIMEDELTA) as [delta|]; unfold ret;
    [|apply Hnone].
  unfold datetime_sub.
  destruct (in_datetime_range (to_unix - delta)); unfold ret; [|apply Hnone].
  unfold call. eexists [HistoryWindow symbol _ _ iv]. split.
  - match goal with |- context [lift ?a] => destruct a end; reflexivity.
  - right. right. eexists. eexists. split; [reflexivity|]. now exists t.
Qed.

Lemma skipn_min_length {A} (k : nat) (l : list A) :
  skipn (Nat.min k (List.length l)) l = skipn k l.
Proof.
  destruct (Nat.le_ge_cases k (List.length l)) as [H|H].
  - now rewrite Nat.min_l.
  - rewrite Nat.min_r by assumption.
    now rewrite !skipn_all2 by lia.
Qed.

Lemma trim_is_skipn (limit : Z) (hist : frame) :
  exists k, trim_to_limit limit hist = skipn k hist.
Proof.
  unfold trim_to_limit, iloc_from.
  destruct (limit <? _); [eexists; reflexivity | now exists 0%nat].
Qed.

Lemma trim_negative (limit : Z) (hist : frame) :
  limit < 0 ->
  trim_to_limit limit hist = skipn (Z.to_nat (- limit)) hist.
Proof.
  intros Hneg. unfold trim_to_limit, iloc_from.
  destruct (limit <? Z.of_nat (List.length hist)) eqn:E;
    [|apply Z.ltb_ge in E; lia].
  destruct (- limit <? 0) eqn:E'; [apply Z.ltb_lt in E'; lia|].
  rewrite <- (skipn_min_length (Z.to_nat (- limit)) hist).
  f_equal. lia.
Qed.

Lemma round_half_even_bound (q : Q) :
  2 * Z.abs (round_half_even q * Zpos (Qden q) - Qnum q) <= Zpos (Qden q).
Proof.
  destruct q as [n d]. unfold round_half_even. cbn [Qnum Qden].
  pose proof (Z.div_mod n (Zpos d) ltac:(lia)) as Hdm.
  pose proof (Z.mod_pos_bound n (Zpos d) ltac:(lia)) as Hr.
  destruct (2 * (n mod Zpos d) <? Zpos d) eqn:E1.
  - apply Z.ltb_lt in E1. nia.
  - apply Z.ltb_ge in E1.
    destruct (Zpos d <? 2 * (n mod Zpos d)) eqn:E2.
    + apply Z.ltb_lt in E2. nia.
    + apply Z.ltb_ge in E2. destruct (Z.even (n / Zpos d)); nia.
Qed.

Lemma round4_close (q : Q) :
  exists k : Z,
    round4 (Fin q) = Fin (k # 10000)
    /\ (Qabs ((k # 10000) - q) <= 1 # 20000)%Q.
Proof.
  exists (round_half_even (q * 10000)). split; [reflexivity|].
  pose proof (round_half_even_bound (q * 10000)) as H.
  destruct q as [n d]. cbn [Qnum Qden Qmult] in H.
  rewrite Pos.mul_1_r in H.
  set (k := round_half_even ((n # d) * 10000)) in *.
  apply Qabs_Qle_condition. unfold Qle, Qminus, Qplus, Qopp.
  cbn [Qnum Qden]. rewrite !Pos2Z.inj_mul. split; lia.
Qed.

Lemma ascending_nth (hist : frame) :
  ascending hist ->
  forall i j ri rj,
    (i <= j)%nat ->
    nth_error hist i = Some ri -> nth_error hist j = Some rj ->
    (row_timestamp ri <= row_timestamp rj)%Q.
Proof.
  induction hist as [|r rest IH]; intros Hasc i j ri rj Hij Hi Hj.
  - destruct i; discriminate.
  - destruct Hasc as [Hhead Hrest]. destruct i as [|i], j as [|j].
    + injection Hi as <-. injection Hj as <-. apply Qle_refl.
    + injection Hi as <-. apply Hhead. simpl in Hj.
      exact (nth_error_In _ _ Hj).
    + lia.
    + simpl in Hi, Hj. apply (IH Hrest i j); [lia | exact Hi | exact Hj].
Qed.

(** ** Validation of the codes *)

(** X1. With a limit that parses, a timeframe outside the table ends the
    run at once: the failure object names the timeframe and lists the
    seven allowed codes, no request is sent, the exit code is 1. The
    range code is not looked at. *)
Theorem invalid_timeframe_rejected e args n :
  int_of_str (args_limit args) = Some n ->
  has_key (args_tf args) TF_TO_YF_INTERVAL = false ->
  run (main e (Candles args))
  = failed_with
      ("Invalid timeframe '" ++ args_tf args
       ++ "'. Allowed: ['1m', '5m', '15m', '1h', '1d', '1w', '1mo']") [].
Proof.
  intros Hn Htf. pose proof (run_candles_cases e args) as H. cbv zeta in H.
  rewrite Hn in H. unfold has_key in Htf.
  destruct (assoc (args_tf args) TF_TO_YF_INTERVAL); [discriminate|exact H].
Qed.

Lemma invalid_timeframe_rejected_witness :
  run (main Scenarios.amd (Candles (mk_args "amd" "2h" "3d" "500" None)))
  = failed_with
      ("Invalid timeframe '" ++ "2h"
       ++ "'. Allowed: ['1m', '5m', '15m', '1h', '1d', '1w', '1mo']") [].
Proof.
  apply (invalid_timeframe_rejected Scenarios.amd
           (mk_args "amd" "2h" "3d" "500" None) 500); reflexivity.
Defined.

(** X2. With a limit that parses and a valid timeframe, a range code
    outside the table ends the run at once: the failure object names the
    range and lists the six allowed codes, no request is sent, the exit
    code is 1. *)
Theorem invalid_range_rejected e args n :
  int_of_str (args_limit args) = Some n ->
  has_key (args_tf args) TF_TO_YF_INTERVAL = true ->
  has_key (args_range args) RANGE_TO_YF_PERIOD = false ->
  run (main e (Candles args))
  = failed_with
      ("Invalid range '" ++ args_range args
       ++ "'. Allowed: ['7d', '30d', '90d', '180d', '1y', '2y']") [].
Proof.
  intros Hn Htf Hrc. pose proof (run_candles_cases e args) as H.
  cbv zeta in H. rewrite Hn, Hrc in H. unfold has_key in Htf.
  destruct (assoc (args_tf args) TF_TO_YF_INTERVAL); [exact H|discriminate].
Qed.

Lemma invalid_range_rejected_witness :
  run (main Scenarios.amd (Candles (mk_args "amd" "1h" "3d" "500" None)))
  = failed_with
      ("Invalid range '" ++ "3d"
       ++ "'. Allowed: ['7d', '30d', '90d', '180d', '1y', '2y']") [].
Proof.
  apply (invalid_range_rejected Scenarios.amd
           (mk_args "amd" "1h" "3d" "500" None) 500); reflexivity.
Defined.

(** ** Standard mode *)

(** X3. Without [--to], or with an empty [--to], a run with valid
    arguments sends exactly one request: the history of the upper-cased
    symbol for the period and the interval the tables give for the range
    and timeframe codes. *)
Theorem standard_mode_request e args n iv period :
  int_of_str (args_limit args) = Some n ->
  assoc (args_tf args) TF_TO_YF_INTERVAL = Some iv ->
  assoc (args_range args) RANGE_TO_YF_PERIOD = Some period ->
  args_to args = None \/ args_to args = Some "" ->
  out_calls (run (main e (Candles args)))
  = [HistoryPeriod (upper (args_symbol args)) period (Some iv)].
Proof.
  intros Hn Htf Hp Hto.
  pose proof (run_standard e args n iv period Hn Htf Hp Hto) as H.
  cbv zeta in H.
  destruct (history_period e (upper (args_symbol args)) period (Some iv))
    as [[|r0 hist0]|msg]; try (rewrite H; reflexivity).
  destruct (forallb finite_volume _).
  - rewrite H. reflexivity.
  - destruct H as [msg [_ ->]]. reflexivity.
Qed.

Lemma standard_mode_request_witness :
  out_calls (run (main Scenarios.amd
                    (Candles (mk_args "amd" "1w" "90d" "500" (Some "")))))
  = [HistoryPeriod (upper "amd") "3mo" (Some "1wk")].
Proof.
  apply (standard_mode_request Scenarios.amd
           (mk_args "amd" "1w" "90d" "500" (Some "")) 500 "1wk" "3mo");
    try reflexivity.
  right. reflexivity.
Defined.

(** X4. In standard mode an empty frame from the provider is a failure:
    the run prints the failure object [No candle data returned for ...]
    with the symbol, timeframe and range, and exits with code 1. *)
Theorem empty_history_is_error e args n iv period :
  int_of_str (args_limit args) = Some n ->
  assoc (args_tf args) TF_TO_YF_INTERVAL = Some iv ->
  assoc (args_range args) RANGE_TO_YF_PERIOD = Some period ->
  args_to args = None \/ args_to args = Some "" ->
  history_period e (upper (args_symbol args)) period (Some iv) = Ok [] ->
  run (main e (Candles args))
  = failed_with
      ("No candle data returned for " ++ upper (args_symbol args)
       ++ " tf=" ++ args_tf args ++ " range=" ++ args_range args)
      [HistoryPeriod (upper (args_symbol args)) period (Some iv)].
Proof.
  intros Hn Htf Hp Hto He.
  pose proof (run_standard e args n iv period Hn Htf Hp Hto) as H.
  cbv zeta in H. now rewrite He in H.
Qed.

Lemma empty_history_is_error_witness :
  run (main (Scenarios.provider [])
            (Candles (mk_args "amd" "1d" "30d" "500" None)))
  = failed_with
      ("No candle data returned for " ++ upper "amd"
       ++ " tf=" ++ "1d" ++ " range=" ++ "30d")
      [HistoryPeriod (upper "amd") "1mo" (Some "1d")].
Proof.
  apply (empty_history_is_error (Scenarios.provider [])
           (mk_args "amd" "1d" "30d" "500" None) 500 "1d" "1mo");
    try reflexivity.
  left. reflexivity.
Defined.

(** X5. In standard mode an exception of the provider is reported, not
    propagated: the run prints the failure object [Candle fetch failed
    for SYMBOL: ] followed by the text of the exception, and exits with
    code 1 without a traceback. *)
Theorem provider_error_is_reported e args n iv period msg :
  int_of_str (args_limit args) = Some n ->
  assoc (args_tf args) TF_TO_YF_INTERVAL = Some iv ->
  assoc (args_range args) RANGE_TO_YF_PERIOD = Some period ->
  args_to args = None \/ args_to args = Some "" ->
  history_period e (upper (args_symbol args)) period (Some iv) = Fails msg ->
  run (main e (Candles args))
  = failed_with
      ("Candle fetch failed for " ++ upper (args_symbol args) ++ ": " ++ msg)
      [HistoryPeriod (upper (args_symbol args)) period (Some iv)].
Proof.
  intros Hn Htf Hp Hto He.
  pose proof (run_standard e args n iv period Hn Htf Hp Hto) as H.
  cbv zeta in H. now rewrite He in H.
Qed.

Lemma provider_error_is_reported_witness :
  run (main (MoreScenarios.answering (Ok None) (Fails "Too Many Requests")
                                     (Fails "Too Many Requests"))
            (Candles (mk_args "amd" "1d" "30d" "500" None)))
  = failed_with
      ("Candle fetch failed for " ++ upper "amd" ++ ": "
       ++ "Too Many Requests")
      [HistoryPeriod (upper "amd") "1mo" (Some "1d")].
Proof.
  apply (provider_error_is_reported
           (MoreScenarios.answering (Ok None) (Fails "Too Many Requests")
                                    (Fails "Too Many Requests"))
           (mk_args "amd" "1d" "30d" "500" None) 500 "1d" "1mo");
    try reflexivity.
  left. reflexivity.
Defined.

(** X6. In standard mode, when the provider returns rows, the run
    succeeds exactly when the volume of every row kept after trimming is
    a finite number; a NaN or infinite volume in one kept row turns the
    whole response into the failure object, and no candle is printed. *)
Theorem success_iff_volumes_finite e args n iv period r0 hist0 :
  int_of_str (args_limit args) = Some n ->
  assoc (args_tf args) TF_TO_YF_INTERVAL = Some iv ->
  assoc (args_range args) RANGE_TO_YF_PERIOD = Some period ->
  args_to args = None \/ args_to args = Some "" ->
  history_period e (upper (args_symbol args)) period (Some iv)
  = Ok (r0 :: hist0) ->
  let o := run (main e (Candles args)) in
  let kept := trim_to_limit (Z.min n 2000) (r0 :: hist0) in
  (exit_code o = 0 <-> forallb finite_volume kept = true)
  /\ (forallb finite_volume kept = false ->
      exists msg,
        (msg = "cannot convert float NaN to integer"
         \/ msg = "cannot convert float infinity to integer")
        /\ out_stdout o
           = [error_doc ("Candle fetch failed for "
                         ++ upper (args_symbol args) ++ ": " ++ msg)]).
Proof.
  intros Hn Htf Hp Hto He.
  pose proof (run_standard e args n iv period Hn Htf Hp Hto) as H.
  cbv zeta in *. rewrite He in H.
  destruct (forallb finite_volume
              (trim_to_limit (Z.min n 2000) (r0 :: hist0))).
  - rewrite H. split; [split; reflexivity | discriminate].
  - destruct H as [msg [Hmsg ->]]. split.
    + split; discriminate.
    + intros _. exists msg. split; [exact Hmsg | reflexivity].
Qed.

Lemma success_iff_volumes_finite_witness :
  let e := Scenarios.provider
             [ MoreScenarios.bar_without_volume 1699920000 1;
               Scenarios.bar 1700006400 2 200 ] in
  let args := mk_args "amd" "1d" "30d" "500" None in
  let o := run (main e (Candles args)) in
  let kept :=
    trim_to_limit (Z.min 500 2000)
      [ MoreScenarios.bar_without_volume 1699920000 1;
        Scenarios.bar 1700006400 2 200 ] in
  (exit_code o = 0 <-> forallb finite_volume kept = true)
  /\ (forallb finite_volume kept = false ->
      exists msg,
        (msg = "cannot convert float NaN to integer"
         \/ msg = "cannot convert float infinity to integer")
        /\ out_stdout o
           = [error_doc ("Candle fetch failed for "
                         ++ upper (args_symbol args) ++ ": " ++ msg)]).
Proof.
  apply (success_iff_volumes_finite
           (Scenarios.provider
              [ MoreScenarios.bar_without_volume 1699920000 1;
                Scenarios.bar 1700006400 2 200 ])
           (mk_args "amd" "1d" "30d" "500" None) 500 "1d" "1mo");
    try reflexivity.
  left. reflexivity.
Defined.

(** ** The limit *)

(** X7. A negative limit [-k] does not fail: a successful run emits the
    provider's rows without the [k] oldest ones ([hist.iloc[k:]]), none at
    all when the provider returned [k] rows or fewer, and [nextTo] is then
    null. *)
Theorem negative_limit_drops_oldest e args n :
  int_of_str (args_limit args) = Some n -> n < 0 ->
  exit_code (run (main e (Candles args))) = 0 ->
  exists rq hist,
    answer e rq = Ok hist
    /\ out_stdout (run (main e (Candles args)))
       = [candles_doc (upper (args_symbol args)) (args_tf args)
            (map candle (skipn (Z.to_nat (- n)) hist))
            (next_to_of (skipn (Z.to_nat (- n)) hist))]
    /\ ((List.length hist <= Z.to_nat (- n))%nat ->
        out_stdout (run (main e (Candles args)))
        = [candles_doc (upper (args_symbol args)) (args_tf args) [] JNull]).
Proof.
  intros Hn Hneg Hexit.
  destruct (candles_success e args Hexit)
    as [n' [rq [hist [Hn' [Ha [_ [_ E]]]]]]].
  rewrite Hn in Hn'. injection Hn' as <-.
  replace (Z.min n 2000) with n in E by lia.
  rewrite trim_negative in E by assumption.
  exists rq, hist. split; [exact Ha|]. split; [now rewrite E|].
  intros Hlen. rewrite E. cbn [out_stdout].
  now rewrite skipn_all2 by assumption.
Qed.

Lemma negative_limit_drops_oldest_witness :
  exists rq hist,
    answer Scenarios.amd rq = Ok hist
    /\ out_stdout (run (main Scenarios.amd
                          (Candles (mk_args "amd" "1d" "30d" "-5" None))))
       = [candles_doc (upper "amd") "1d"
            (map candle (skipn (Z.to_nat (- -5)) hist))
            (next_to_of (skipn (Z.to_nat (- -5)) hist))]
    /\ ((List.length hist <= Z.to_nat (- -5))%nat ->
        out_stdout (run (main Scenarios.amd
                           (Candles (mk_args "amd" "1d" "30d" "-5" None))))
        = [candles_doc (upper "amd") "1d" [] JNull]).
Proof.
  apply (negative_limit_drops_oldest Scenarios.amd
           (mk_args "amd" "1d" "30d" "-5" None) (-5));
    [reflexivity | lia | reflexivity].
Defined.

(** X8. Whatever the limit, the candles of a successful run are the
    conversions, in order, of a suffix of the rows the provider returned:
    the tool drops only the oldest rows, never reorders and never emits
    more candles than rows. *)
Theorem emitted_candles_are_suffix e args :
  exit_code (run (main e (Candles args))) = 0 ->
  exists rq hist dropped kept next_to,
    answer e rq = Ok hist
    /\ hist = (dropped ++ kept)%list
    /\ out_stdout (run (main e (Candles args)))
       = [candles_doc (upper (args_symbol args)) (args_tf args)
            (map candle kept) next_to]
    /\ (List.length (map candle kept) <= List.length hist)%nat.
Proof.
  intros Hexit.
  destruct (candles_success e args Hexit)
    as [n [rq [hist [_ [Ha [_ [_ E]]]]]]].
  destruct (trim_is_skipn (Z.min n 2000) hist) as [k Hk].
  rewrite Hk in E.
  exists rq, hist, (firstn k hist), (skipn k hist). eexists.
  split; [exact Ha|]. split; [now rewrite firstn_skipn|].
  split; [rewrite E; reflexivity|].
  rewrite length_map, length_skipn. lia.
Qed.

Lemma emitted_candles_are_suffix_witness :
  exists rq hist dropped kept next_to,
    answer Scenarios.amd rq = Ok hist
    /\ hist = (dropped ++ kept)%list
    /\ out_stdout (run (main Scenarios.amd
                          (Candles (mk_args "amd" "1d" "30d" "2" None))))
       = [candles_doc (upper "amd") "1d" (map candle kept) next_to]
    /\ (List.length (map candle kept) <= List.length hist)%nat.
Proof.
  apply (emitted_candles_are_suffix Scenarios.amd
           (mk_args "amd" "1d" "30d" "2" None)).
  reflexivity.
Defined.

(** ** Requests *)

(** X9. No run retries or fans out: [candles] sends at most one request
    to the provider and [quote] at most two. *)
Theorem at_most_one_request e cmd :
  (List.length (out_calls (run (main e cmd))) <= 2)%nat
  /\ (forall args, cmd = Candles args ->
       (List.length (out_calls (run (main e cmd))) <= 1)%nat).
Proof.
  assert (Hc : forall args,
    (List.length (out_calls (run (main e (Candles args)))) <= 1)%nat).
  { intros args. pose proof (run_candles_cases e args) as H.
    cbv zeta in H.
    destruct (int_of_str (args_limit args)) as [n|] eqn:Hn;
      [|rewrite H; simpl; lia].
    destruct (assoc (args_tf args) TF_TO_YF_INTERVAL) as [iv|] eqn:Htf;
      [|rewrite H; simpl; lia].
    destruct (has_key (args_range args) RANGE_TO_YF_PERIOD) eqn:Hrc;
      [|rewrite H; simpl; lia].
    rewrite (run_candles_valid e args n iv Hn Htf Hrc).
    rewrite run_try_calls, candles_try_sent.
    destruct (fetch_history_sent e (upper (args_symbol args))
                (args_range args) iv (args_to args) (mk_state [] []))
      as [sent [-> Hs]].
    cbn [calls app].
    destruct Hs as [-> | [[p ->] | [a [b [-> _]]]]]; simpl; lia. }
  split.
  - destruct cmd as [sym|args|].
    + pose proof (run_quote_cases e sym) as H. cbv zeta in H.
      destruct (fast_info_last_price e (upper sym)) as [[p|]|msg];
        try (rewrite H; simpl; lia).
      destruct (history_period e (upper sym) "1d" None) as [[|r rest]|msg];
        rewrite H; simpl; lia.
    + specialize (Hc args). lia.
    + simpl. lia.
  - intros args ->. apply Hc.
Qed.

(** X10. With a non-empty [--to] and valid arguments the tool never
    falls back to a period request: it sends either nothing or exactly one
    window request, for the upper-cased symbol and the interval of the
    timeframe code. *)
Theorem paging_request_shape e args n iv s :
  int_of_str (args_limit args) = Some n ->
  assoc (args_tf args) TF_TO_YF_INTERVAL = Some iv ->
  has_key (args_range args) RANGE_TO_YF_PERIOD = true ->
  args_to args = Some s -> s <> "" ->
  out_calls (run (main e (Candles args))) = []
  \/ exists start end_,
       out_calls (run (main e (Candles args)))
       = [HistoryWindow (upper (args_symbol args)) start end_ iv].
Proof.
  intros Hn Htf Hrc Hto Hs.
  rewrite (run_candles_valid e args n iv Hn Htf Hrc).
  rewrite run_try_calls, candles_try_sent, Hto.
  unfold fetch_history. apply String.eqb_neq in Hs. rewrite Hs.
  unfold fetch_paging, bind, lift.
  destruct (float_of_str e s) as [x|msg]; unfold ret; [|now left].
  destruct (int_of_float x) as [to_unix|msg]; [|now left].
  unfold fromtimestamp.
  destruct (in_datetime_range to_unix); unfold ret; [|now left].
  unfold getitem.
  destruct (assoc (args_range args) RANGE_TO_TIMEDELTA) as [delta|];
    unfold ret; [|now left].
  unfold datetime_sub.
  destruct (in_datetime_range (to_unix - delta)); unfold ret; [|now left].
  right. unfold call. eexists. eexists.
  match goal with |- context [lift ?a] => destruct a end; reflexivity.
Qed.

Lemma paging_request_shape_witness :
  out_calls (run (main Scenarios.amd
                    (Candles (mk_args "amd" "1h" "7d" "500"
                                      (Some "1700000000"))))) = []
  \/ exists start end_,
       out_calls (run (main Scenarios.amd
                         (Candles (mk_args "amd" "1h" "7d" "500"
                                           (Some "1700000000")))))
       = [HistoryWindow (upper "amd") start end_ "1h"].
Proof.
  apply (paging_request_shape Scenarios.amd
           (mk_args "amd" "1h" "7d" "500" (Some "1700000000"))
           500 "1h" "1700000000"); try reflexivity.
  discriminate.
Defined.

(** X11. A pivot that cannot be read as a number (the [ValueError] of
    [float], or the error of [int] on NaN or an infinity) is reported in
    the failure object [Candle fetch failed for SYMBOL: ...]; the provider
    is not contacted and the exit code is 1. *)
Theorem unreadable_pivot_sends_nothing e args n iv s msg :
  int_of_str (args_limit args) = Some n ->
  assoc (args_tf args) TF_TO_YF_INTERVAL = Some iv ->
  has_key (args_range args) RANGE_TO_YF_PERIOD = true ->
  args_to args = Some s -> s <> "" ->
  match float_of_str e s with
  | Ok x => int_of_float x
  | Fails m => Fails m
  end = Fails msg ->
  run (main e (Candles args))
  = failed_with
      ("Candle fetch failed for " ++ upper (args_symbol args) ++ ": " ++ msg)
      [].
Proof.
  intros Hn Htf Hrc Hto Hs Hread.
  rewrite (run_candles_valid e args n iv Hn Htf Hrc).
  unfold run, try_except, candles_try. rewrite Hto.
  unfold fetch_history. apply String.eqb_neq in Hs. rewrite Hs.
  unfold fetch_paging, bind, lift.
  destruct (float_of_str e s) as [x|m].
  - unfold ret. rewrite Hread. reflexivity.
  - injection Hread as ->. reflexivity.
Qed.

Lemma unreadable_pivot_sends_nothing_witness :
  run (main Scenarios.amd
            (Candles (mk_args "amd" "1h" "7d" "500" (Some "yesterday"))))
  = failed_with
      ("Candle fetch failed for " ++ upper "amd" ++ ": "
       ++ "could not convert string to float: 'yesterday'")
      [].
Proof.
  apply (unreadable_pivot_sends_nothing Scenarios.amd
           (mk_args "amd" "1h" "7d" "500" (Some "yesterday"))
           500 "1h" "yesterday"); try reflexivity.
  discriminate.
Defined.

(** X12. A pivot whose window leaves the years 1 to 9999 (the pivot
    itself, or the pivot minus the duration of the range) is reported in
    the failure object; the provider is not contacted. *)
Theorem window_outside_calendar_sends_nothing e args n iv s x t days :
  int_of_str (args_limit args) = Some n ->
  assoc (args_tf args) TF_TO_YF_INTERVAL = Some iv ->
  assoc (args_range args) range_days = Some days ->
  args_to args = Some s -> s <> "" ->
  float_of_str e s = Ok x -> int_of_float x = Ok t ->
  in_datetime_range t = false
  \/ in_datetime_range (t - days * 86400) = false ->
  exists msg,
    (msg = fromtimestamp_error e t \/ msg = "date value out of range")
    /\ run (main e (Candles args))
       = failed_with
           ("Candle fetch failed for " ++ upper (args_symbol args) ++ ": "
            ++ msg) [].
Proof.
  intros Hn Htf Hd Hto Hs Hx Ht Hout.
  destruct (range_days_tables _ _ Hd) as [Hrc Hdelta].
  rewrite (run_candles_valid e args n iv Hn Htf Hrc).
  unfold run, try_except, candles_try. rewrite Hto.
  unfold fetch_history. apply String.eqb_neq in Hs. rewrite Hs.
  unfold fetch_paging, bind, lift, fromtimestamp, getitem, datetime_sub.
  rewrite Hx. cbn [ret]. rewrite Ht. cbn [ret].
  destruct (in_datetime_range t) eqn:E1.
  - destruct Hout as [Hout|Hout]; [discriminate|].
    cbn [ret]. rewrite Hdelta. cbn [ret]. rewrite Hout.
    eexists. split; [right; reflexivity | reflexivity].
  - eexists. split; [left; reflexivity | reflexivity].
Qed.

Lemma window_outside_calendar_sends_nothing_witness :
  exists msg,
    (msg = fromtimestamp_error Scenarios.amd (-62135596800)
     \/ msg = "date value out of range")
    /\ run (main Scenarios.amd
                 (Candles (mk_args "amd" "1d" "7d" "500"
                                   (Some "-62135596800"))))
       = failed_with
           ("Candle fetch failed for " ++ upper "amd" ++ ": " ++ msg) [].
Proof.
  apply (window_outside_calendar_sends_nothing Scenarios.amd
           (mk_args "amd" "1d" "7d" "500" (Some "-62135596800"))
           500 "1d" "-62135596800" (Fin (inject_Z (-62135596800)))
           (-62135596800) 7); try reflexivity.
  - discriminate.
  - right. reflexivity.
Defined.

(** ** Shape of every run *)

(** X13. For every command line [argparse] accepts, whatever the
    provider answers: a [quote] run, a run without subcommand, and a
    [candles] run whose [--limit] is an ASCII string of at most 4300
    characters that [int] reads, print exactly one line through
    [json.dumps] and leave no traceback: either the failure object with
    exit code 1, or an object with ["ok": true] with exit code 0 (in which
    a price that is NaN or infinite appears as the token [NaN] or
    [Infinity]). *)
Theorem every_run_prints_one_document e cmd :
  (forall args, cmd = Candles args ->
     is_ascii (args_limit args) = true
     /\ (String.length (args_limit args) <= 4300)%nat
     /\ int_of_str (args_limit args) <> None) ->
  traceback (run (main e cmd)) = None
  /\ ((exit_code (run (main e cmd)) = 1
       /\ exists msg, out_stdout (run (main e cmd)) = [error_doc msg])
      \/ (exit_code (run (main e cmd)) = 0
          /\ exists doc, out_stdout (run (main e cmd)) = [doc]
                         /\ field "ok" doc = Some (JBool true))).
Proof.
  intros H. apply (failure_is_json e cmd).
  intros args Hargs. exact (proj2 (proj2 (H args Hargs))).
Qed.

Lemma every_run_prints_one_document_witness :
  let e := MoreScenarios.answering (Fails "timed out") (Fails "timed out")
                                   (Fails "timed out") in
  let cmd := Candles (mk_args "amd" "1d" "30d" "500" None) in
  traceback (run (main e cmd)) = None
  /\ ((exit_code (run (main e cmd)) = 1
       /\ exists msg, out_stdout (run (main e cmd)) = [error_doc msg])
      \/ (exit_code (run (main e cmd)) = 0
          /\ exists doc, out_stdout (run (main e cmd)) = [doc]
                         /\ field "ok" doc = Some (JBool true))).
Proof.
  apply (every_run_prints_one_document
           (MoreScenarios.answering (Fails "timed out") (Fails "timed out")
                                    (Fails "timed out"))
           (Candles (mk_args "amd" "1d" "30d" "500" None))).
  intros args [= <-]. split; [reflexivity|]. split; [simpl; lia|].
  discriminate.
Defined.

(** X14. With a positive limit, a successful run emits at most [limit]
    and at most 2000 candles: the conversions of all the rows when the
    provider returned no more than [min(limit, 2000)], and of the last
    [min(limit, 2000)] rows otherwise. *)
Theorem positive_limit_keeps_most_recent e args n :
  int_of_str (args_limit args) = Some n -> 0 < n ->
  exit_code (run (main e (Candles args))) = 0 ->
  exists rq hist candles next_to,
    answer e rq = Ok hist
    /\ out_stdout (run (main e (Candles args)))
       = [candles_doc (upper (args_symbol args)) (args_tf args)
            candles next_to]
    /\ Z.of_nat (List.length candles) <= n
    /\ Z.of_nat (List.length candles) <= 2000
    /\ candles
       = map candle
           (if Z.min n 2000 <? Z.of_nat (List.length hist)
            then lastn (Z.to_nat (Z.min n 2000)) hist else hist).
Proof. exact (positive_limit_bounds_count e args n). Qed.

Lemma positive_limit_keeps_most_recent_witness :
  exists rq hist candles next_to,
    answer Scenarios.amd rq = Ok hist
    /\ out_stdout (run (main Scenarios.amd
                          (Candles (mk_args "amd" "1d" "30d" "2" None))))
       = [candles_doc (upper "amd") "1d" candles next_to]
    /\ Z.of_nat (List.length candles) <= 2
    /\ Z.of_nat (List.length candles) <= 2000
    /\ candles
       = map candle
           (if Z.min 2 2000 <? Z.of_nat (List.length hist)
            then lastn (Z.to_nat (Z.min 2 2000)) hist else hist).
Proof.
  apply (positive_limit_keeps_most_recent Scenarios.amd
           (mk_args "amd" "1d" "30d" "2" None) 2);
    [reflexivity | lia | reflexivity].
Defined.

(** ** What a candle holds *)

(** X15. In a candle, each of [open], [high], [low] and [close] whose
    value in the row is finite and below 10^11 in magnitude is printed as
    a decimal with at most four places (a multiple of 0.0001) at most
    0.00005 away from the row's value. *)
Theorem candle_prices_four_decimals r s doc s' key q :
  candle_of_row r s = (Return doc, s') ->
  In (key, Fin q) [ ("open", row_Open r); ("high", row_High r);
                    ("low", row_Low r); ("close", row_Close r) ] ->
  (Qabs q < 100000000000)%Q ->
  exists k : Z,
    field key doc = Some (JNum (Fin (k # 10000)))
    /\ (Qabs ((k # 10000) - q) <= 1 # 20000)%Q.
Proof.
  intros Hrow Hin _. unfold candle_of_row, bind, lift in Hrow.
  destruct (int_of_float (row_Volume r)) as [v|msg]; [|discriminate].
  cbn [ret] in Hrow. injection Hrow as <- _.
  destruct (round4_close q) as [k [Hk Hb]]. exists k. split; [|exact Hb].
  rewrite <- Hk.
  destruct Hin as [H | [H | [H | [H | []]]]]; injection H as <- <-;
    reflexivity.
Qed.

Lemma candle_prices_four_decimals_witness :
  exists k : Z,
    field "close"
      (candle (Scenarios.bar 1700006400 (12448563 # 65536) 200))
    = Some (JNum (Fin (k # 10000)))
    /\ (Qabs ((k # 10000) - (12448563 # 65536)) <= 1 # 20000)%Q.
Proof.
  apply (candle_prices_four_decimals
           (Scenarios.bar 1700006400 (12448563 # 65536) 200)
           (mk_state [] [])
           (candle (Scenarios.bar 1700006400 (12448563 # 65536) 200))
           (mk_state [] []) "close" (12448563 # 65536)).
  - reflexivity.
  - right. right. right. left. reflexivity.
  - reflexivity.
Defined.

(** X16. When the provider's rows ascend by time, the candles of a
    successful run ascend by [time] as well: a candle never comes before
    one with a smaller [time]. *)
Theorem candles_ascend e args :
  ascending_provider e ->
  exit_code (run (main e (Candles args))) = 0 ->
  exists doc candles,
    out_stdout (run (main e (Candles args))) = [doc]
    /\ field "candles" doc = Some (JList candles)
    /\ forall i j c c' t t',
         (i <= j)%nat ->
         nth_error candles i = Some c -> nth_error candles j = Some c' ->
         field "time" c = Some (JInt t) ->
         field "time" c' = Some (JInt t') ->
         t <= t'.
Proof.
  intros Hasc Hexit.
  destruct (candles_success e args Hexit)
    as [n [rq [hist [_ [Ha [_ [_ E]]]]]]].
  rewrite E. cbn [out_stdout].
  set (kept := trim_to_limit (Z.min n 2000) hist).
  exists (candles_doc (upper (args_symbol args)) (args_tf args)
            (map candle kept) (next_to_of kept)), (map candle kept).
  split; [reflexivity|]. split; [reflexivity|].
  intros i j c c' t t' Hij Hi Hj Ht Ht'.
  rewrite nth_error_map in Hi, Hj.
  destruct (nth_error kept i) as [ri|] eqn:Eri; [|discriminate].
  destruct (nth_error kept j) as [rj|] eqn:Erj; [|discriminate].
  injection Hi as <-. injection Hj as <-.
  rewrite candle_time in Ht, Ht'. injection Ht as <-. injection Ht' as <-.
  apply PyFacts.trunc_monotone.
  apply (ascending_nth kept (ascending_trim _ _ (Hasc rq hist Ha))
           i j ri rj Hij Eri Erj).
Qed.

Lemma candles_ascend_witness :
  exists doc candles,
    out_stdout (run (main Scenarios.amd
                       (Candles (mk_args "amd" "1d" "30d" "500" None))))
    = [doc]
    /\ field "candles" doc = Some (JList candles)
    /\ forall i j c c' t t',
         (i <= j)%nat ->
         nth_error candles i = Some c -> nth_error candles j = Some c' ->
         field "time" c = Some (JInt t) ->
         field "time" c' = Some (JInt t') ->
         t <= t'.
Proof.
  apply (candles_ascend Scenarios.amd
           (mk_args "amd" "1d" "30d" "500" None)); [|reflexivity].
  intros rq hist H.
  assert (Hbars : ascending Scenarios.three_bars).
  { simpl. repeat split; intros r' Hin;
      repeat (destruct Hin as [<- | Hin]; [unfold Qle; simpl; lia|]);
      destruct Hin. }
  destruct rq; simpl in H; try discriminate; injection H as <-; exact Hbars.
Defined.

(** ** quote *)

(** X17. When the fast price is available the daily history is not
    requested: the run sends one request and prints the success object
    with the fast price rounded to four decimal places. *)
Theorem quote_prefers_fast_price e sym p :
  fast_info_last_price e (upper sym) = Ok (Some p) ->
  run (main e (Quote sym))
  = mk_outcome [quote_doc (upper sym) (round4 p) (now_utc e)]
               [FastInfoLastPrice (upper sym)] 0 None.
Proof.
  intros Hfast. pose proof (run_quote_cases e sym) as H. cbv zeta in H.
  now rewrite Hfast in H.
Qed.

Lemma quote_prefers_fast_price_witness :
  let e := MoreScenarios.answering (Ok (Some (Fin (1234567 # 10000))))
             (Fails "not reached") (Fails "not reached") in
  run (main e (Quote "amd"))
  = mk_outcome
      [quote_doc (upper "amd") (round4 (Fin (1234567 # 10000))) (now_utc e)]
      [FastInfoLastPrice (upper "amd")] 0 None.
Proof.
  apply (quote_prefers_fast_price
           (MoreScenarios.answering (Ok (Some (Fin (1234567 # 10000))))
              (Fails "not reached") (Fails "not reached"))
           "amd" (Fin (1234567 # 10000))).
  reflexivity.
Defined.

(** X18. A quote that finds no data fails with its own message: when the
    fast price is [None] and the daily history is empty the run prints the
    failure object [No quote data found for SYMBOL], not wrapped into
    [Quote fetch failed], and exits with code 1. *)
Theorem quote_without_data_fails e sym :
  fast_info_last_price e (upper sym) = Ok None ->
  history_period e (upper sym) "1d" None = Ok [] ->
  run (main e (Quote sym))
  = failed_with ("No quote data found for " ++ upper sym)
      [FastInfoLastPrice (upper sym); HistoryPeriod (upper sym) "1d" None].
Proof.
  intros Hfast Hhist. pose proof (run_quote_cases e sym) as H.
  cbv zeta in H. now rewrite Hfast, Hhist in H.
Qed.

Lemma quote_without_data_fails_witness :
  run (main (Scenarios.provider []) (Quote "amd"))
  = failed_with ("No quote data found for " ++ upper "amd")
      [FastInfoLastPrice (upper "amd"); HistoryPeriod (upper "amd") "1d" None].
Proof.
  apply (quote_without_data_fails (Scenarios.provider []) "amd");
    reflexivity.
Defined.

(** X19. An exception of the provider during a quote, on the fast price
    or on the fallback history, is reported as the failure object [Quote
    fetch failed for SYMBOL: ] followed by the text of the exception, with
    exit code 1 and no traceback. *)
Theorem quote_provider_error_is_reported e sym msg :
  fast_info_last_price e (upper sym) = Fails msg
  \/ (fast_info_last_price e (upper sym) = Ok None
      /\ history_period e (upper sym) "1d" None = Fails msg) ->
  out_stdout (run (main e (Quote sym)))
  = [error_doc ("Quote fetch failed for " ++ upper sym ++ ": " ++ msg)]
  /\ exit_code (run (main e (Quote sym))) = 1
  /\ traceback (run (main e (Quote sym))) = None.
Proof.
  intros Hfail. pose proof (run_quote_cases e sym) as H. cbv zeta in H.
  destruct Hfail as [Hfast | [Hfast Hhist]].
  - rewrite Hfast in H. rewrite H. repeat split.
  - rewrite Hfast, Hhist in H. rewrite H. repeat split.
Qed.

Lemma quote_provider_error_is_reported_witness :
  let e := MoreScenarios.answering (Ok None) (Fails "Too Many Requests")
                                   (Fails "Too Many Requests") in
  out_stdout (run (main e (Quote "amd")))
  = [error_doc ("Quote fetch failed for " ++ upper "amd" ++ ": "
                ++ "Too Many Requests")]
  /\ exit_code (run (main e (Quote "amd"))) = 1
  /\ traceback (run (main e (Quote "amd"))) = None.
Proof.
  apply (quote_provider_error_is_reported
           (MoreScenarios.answering (Ok None) (Fails "Too Many Requests")
                                    (Fails "Too Many Requests"))
           "amd" "Too Many Requests").
  right. split; reflexivity.
Defined.

(** ** The symbol *)

(** X20. The case of [--symbol] does not matter: a run on a symbol and a
    run on its upper-cased form send the same requests and print the same
    document, for [quote] and for [candles]. *)
Theorem symbol_case_is_ignored e sym tf rc lim to_ts :
  run (main e (Quote (upper sym))) = run (main e (Quote sym))
  /\ run (main e (Candles (mk_args (upper sym) tf rc lim to_ts)))
     = run (main e (Candles (mk_args sym tf rc lim to_ts))).
Proof.
  split.
  - unfold main, cmd_quote. now rewrite upper_idempotent.
  - unfold main, cmd_candles. cbn [args_symbol args_tf args_range args_limit
                                   args_to].
    now rewrite upper_idempotent.
Qed.

End MarketDataMore.

(* ===================================================================== *)
(** * fetch_news.py: further properties *)
(* ===================================================================== *)

Module TechReportMore.
Import Py PySpec TechReport TechReportSpec TechReportFacts.
Local Arguments String.eqb : simpl never.

(** ** Helper lemmas *)

Lemma fold_news_keeps_rsi (b : list write) :
  Forall writes_news b ->
  forall g, result_rsi (fold_left assign b g) = result_rsi g.
Proof.
  induction 1 as [|w b Hw Hb IH]; intros g; [reflexivity|].
  simpl. rewrite IH. destruct w; [contradiction | reflexivity | reflexivity].
Qed.

Lemma joined_sequential e symbol schedule :
  interleaving (get_rsi_data e symbol) (get_news_data e symbol) schedule ->
  joined schedule
  = fold_left assign (get_rsi_data e symbol ++ get_news_data e symbol)%list
              initial.
Proof.
  intros Hil. unfold joined. apply (schedule_irrelevant _ _ _ Hil).
  - destruct (get_rsi_data_writes e symbol) as [x ->]. repeat constructor.
  - apply get_news_data_writes.
Qed.

Lemma joined_rsi e symbol schedule x :
  interleaving (get_rsi_data e symbol) (get_news_data e symbol) schedule ->
  get_rsi_data e symbol = [SetRsi x] ->
  result_rsi (joined schedule) = x.
Proof.
  intros Hil Hx. rewrite (joined_sequential e symbol schedule Hil).
  rewrite fold_left_app, fold_news_keeps_rsi by apply get_news_data_writes.
  now rewrite Hx.
Qed.

Lemma interleaving_sequential (a b : list write) :
  interleaving a b (a ++ b)%list.
Proof.
  induction a as [|w a IH]; simpl.
  - induction b as [|w b IH]; [constructor | now constructor].
  - now constructor.
Qed.

(** The loop, from its initial state, in terms of the collected items. *)
Lemma news_loop_collects e keywords items unread0 :
  let collected := firstn 5 (filter (is_relevant keywords) items) in
  let st := news_loop e keywords items (mk_loop [] (Fin 0) 0 unread0) in
  headlines st = map (headline e) collected
  /\ count st = Z.of_nat (List.length collected)
  /\ total_score st
     = fold_left (fadd e) (map (score_of e) collected) (Fin 0).
Proof.
  cbv zeta.
  pose proof (news_loop_spec e keywords items
                (mk_loop [] (Fin 0) 0 unread0) 0 ltac:(lia) eq_refl) as H.
  cbv zeta in H. cbn [headlines count total_score Nat.sub Nat.add app] in H.
  destruct H as [Hh [Hc [Ht _]]]. repeat split; assumption.
Qed.

(** ** Threads *)

(** X21. The order in which the two threads run does not show: with a
    symbol on the command line, the lines printed are the report of the
    globals left by worker 1 followed by worker 2, under every schedule;
    and such a run exists. *)
Theorem report_independent_of_schedule e prog arg rest lines :
  main_prints e (prog :: arg :: rest) lines
  <-> lines
      = report (upper arg)
          (fold_left assign
             (get_rsi_data e (upper arg) ++ get_news_data e (upper arg))%list
             initial).
Proof.
  unfold main_prints. split.
  - intros [schedule [Hil ->]].
    now rewrite (joined_sequential e (upper arg) schedule Hil).
  - intros ->.
    exists (get_rsi_data e (upper arg) ++ get_news_data e (upper arg))%list.
    split; [apply interleaving_sequential | reflexivity].
Qed.

(** ** The RSI line *)

(** X22. When the history cannot be fetched, is empty, or the indicator
    raises, every report shows [RSI (14-day): -1.00 [DATA ERROR]] as its
    second line, whatever the news worker does. *)
Theorem rsi_failure_is_data_error e prog arg rest lines :
  (exists msg, history_1mo_Close e (upper arg) = Fails msg)
  \/ history_1mo_Close e (upper arg) = Ok []
  \/ (exists hist msg,
        history_1mo_Close e (upper arg) = Ok hist
        /\ rsi_14_last e hist = Fails msg) ->
  main_prints e (prog :: arg :: rest) lines ->
  nth 1 lines "" = "RSI (14-day): -1.00 [DATA ERROR]".
Proof.
  intros Hfail [schedule [Hil ->]].
  assert (Hx : get_rsi_data e (upper arg) = [SetRsi (Fin (-1))]).
  { unfold get_rsi_data.
    destruct Hfail as [[msg ->] | [-> | [hist [msg [-> Hr]]]]];
      try reflexivity.
    destruct hist; [reflexivity|]. now rewrite Hr. }
  cbn [report nth]. now rewrite (joined_rsi e _ schedule _ Hil Hx).
Qed.

Lemma rsi_failure_is_data_error_witness :
  let e := mk_world (fun _ => Ok []) (fun _ => Ok (Fin 55))
                    (fun _ => Ok ReportScenarios.feed)
                    (fun _ => Ok (Some "Advanced Micro Devices, Inc."))
                    (fun _ => Fin (1 # 4))
                    ReportScenarios.exact_add ReportScenarios.exact_div in
  nth 1 (report "AMD" (joined (get_news_data e "AMD"
                               ++ get_rsi_data e "AMD")%list)) ""
  = "RSI (14-day): -1.00 [DATA ERROR]".
Proof.
  apply (rsi_failure_is_data_error
           (mk_world (fun _ => Ok []) (fun _ => Ok (Fin 55))
                     (fun _ => Ok ReportScenarios.feed)
                     (fun _ => Ok (Some "Advanced Micro Devices, Inc."))
                     (fun _ => Fin (1 # 4))
                     ReportScenarios.exact_add ReportScenarios.exact_div)
           "fetch_news.py" "amd" []).
  - right. left. reflexivity.
  - eexists. split; [|reflexivity].
    apply il_right, il_right, il_left, il_nil.
Defined.

(** X23. When the history is fetched and not empty and the indicator
    returns a value, every report shows that value, formatted with two
    decimals and followed by its status, as its second line, whatever the
    news worker does. *)
Theorem rsi_value_reaches_report e prog arg rest lines hist x :
  history_1mo_Close e (upper arg) = Ok hist -> hist <> [] ->
  rsi_14_last e hist = Ok x ->
  main_prints e (prog :: arg :: rest) lines ->
  nth 1 lines ""
  = "RSI (14-day): " ++ format_2f x ++ " [" ++ rsi_status x ++ "]".
Proof.
  intros Hh Hne Hr [schedule [Hil ->]].
  assert (Hx : get_rsi_data e (upper arg) = [SetRsi x]).
  { unfold get_rsi_data. rewrite Hh.
    destruct hist; [contradiction|]. now rewrite Hr. }
  cbn [report nth]. now rewrite (joined_rsi e _ schedule _ Hil Hx).
Qed.

Lemma rsi_value_reaches_report_witness :
  let e := ReportScenarios.report_provider (Ok ReportScenarios.feed)
             (Ok (Some "Advanced Micro Devices, Inc.")) in
  nth 1 (report "AMD" (joined (get_news_data e "AMD"
                               ++ get_rsi_data e "AMD")%list)) ""
  = "RSI (14-day): " ++ format_2f (Fin 55) ++ " [" ++ rsi_status (Fin 55)
    ++ "]".
Proof.
  apply (rsi_value_reaches_report
           (ReportScenarios.report_provider (Ok ReportScenarios.feed)
              (Ok (Some "Advanced Micro Devices, Inc.")))
           "fetch_news.py" "amd" [] _ [Fin 100; Fin 101; Fin 102] (Fin 55)).
  - reflexivity.
  - discriminate.
  - reflexivity.
  - eexists. split; [|reflexivity].
    apply il_right, il_right, il_left, il_nil.
Defined.

(** ** The news worker *)

(** X24. When the fetches succeed and no item of the feed is relevant
    (an empty feed included), the worker stores the line [No specific news
    found for SYMBOL.] and the sentiment 0. *)
Theorem no_relevant_news e symbol items name word more :
  news e symbol = Ok items ->
  info_shortName e symbol = Ok name ->
  split (get name "") = word :: more ->
  filter (is_relevant [symbol; word]) items = [] ->
  get_news_data e symbol
  = [ SetNews ("No specific news found for " ++ symbol ++ ".");
      SetSentiment (Fin 0) ].
Proof.
  intros Hnews Hinfo Hsplit Hnone.
  destruct (news_loop_collects e [symbol; word] items items)
    as [Hh [Hc _]].
  rewrite Hnone in Hh, Hc. cbn [firstn map List.length] in Hh, Hc.
  unfold get_news_data, news_try. rewrite Hnews, Hinfo, Hsplit.
  cbn [first]. rewrite Hh, Hc. reflexivity.
Qed.

Lemma no_relevant_news_witness :
  let e := ReportScenarios.report_provider
             (Ok [ReportScenarios.story "Markets close higher"
                     "Broad rally on Wall Street" "2024-05-01T21:00:00Z"])
             (Ok (Some "Advanced Micro Devices, Inc.")) in
  get_news_data e "AMD"
  = [ SetNews ("No specific news found for " ++ "AMD" ++ ".");
      SetSentiment (Fin 0) ].
Proof.
  apply (no_relevant_news
           (ReportScenarios.report_provider
              (Ok [ReportScenarios.story "Markets close higher"
                      "Broad rally on Wall Street" "2024-05-01T21:00:00Z"])
              (Ok (Some "Advanced Micro Devices, Inc.")))
           "AMD"
           [ReportScenarios.story "Markets close higher"
               "Broad rally on Wall Street" "2024-05-01T21:00:00Z"]
           (Some "Advanced Micro Devices, Inc.")
           "Advanced" ["Micro"; "Devices,"; "Inc."]);
    reflexivity.
Defined.

(** X25. When the fetches succeed and some item is relevant, the worker
    stores the headlines of the collected items (the first five relevant
    ones), one per line, and as sentiment the sum of their title scores,
    added in feed order starting from 0, divided by their number. *)
Theorem sentiment_is_mean_of_collected e symbol items name word more :
  news e symbol = Ok items ->
  info_shortName e symbol = Ok name ->
  split (get name "") = word :: more ->
  let collected := firstn 5 (filter (is_relevant [symbol; word]) items) in
  collected <> [] ->
  get_news_data e symbol
  = [ SetNews (join (String "010" "") (map (headline e) collected));
      SetSentiment
        (fdiv e (fold_left (fadd e) (map (score_of e) collected) (Fin 0))
                (Z.of_nat (List.length collected))) ].
Proof.
  intros Hnews Hinfo Hsplit collected Hsome.
  destruct (news_loop_collects e [symbol; word] items items)
    as [Hh [Hc Ht]].
  fold collected in Hh, Hc, Ht.
  unfold get_news_data, news_try. rewrite Hnews, Hinfo, Hsplit.
  cbn [first]. rewrite Hh, Hc, Ht.
  destruct collected as [|c0 cs] eqn:E; [contradiction|].
  cbn [map List.length].
  destruct (0 <? Z.of_nat (S (List.length cs))) eqn:Epos;
    [reflexivity | apply Z.ltb_ge in Epos; lia].
Qed.

Lemma sentiment_is_mean_of_collected_witness :
  let e := ReportScenarios.report_provider (Ok ReportScenarios.feed)
             (Ok (Some "Advanced Micro Devices, Inc.")) in
  let collected :=
    firstn 5 (filter (is_relevant ["AMD"; "Advanced"]) ReportScenarios.feed) in
  get_news_data e "AMD"
  = [ SetNews (join (String "010" "") (map (headline e) collected));
      SetSentiment
        (fdiv e (fold_left (fadd e) (map (score_of e) collected) (Fin 0))
                (Z.of_nat (List.length collected))) ].
Proof.
  apply (sentiment_is_mean_of_collected
           (ReportScenarios.report_provider (Ok ReportScenarios.feed)
              (Ok (Some "Advanced Micro Devices, Inc.")))
           "AMD" ReportScenarios.feed (Some "Advanced Micro Devices, Inc.")
           "Advanced" ["Micro"; "Devices,"; "Inc."]);
    try reflexivity.
  discriminate.
Defined.

(** X26. Once a prefix of the feed holds five relevant items, what
    follows it has no influence: two providers that differ only in the
    items after such a prefix make the worker store the same text and the
    same sentiment. *)
Theorem items_after_fifth_are_ignored e symbol name word more
    prefix tail1 tail2 :
  info_shortName e symbol = Ok name ->
  split (get name "") = word :: more ->
  (5 <= List.length (filter (is_relevant [symbol; word]) prefix))%nat ->
  let with_feed feed :=
    mk_world (history_1mo_Close e) (rsi_14_last e) (fun _ => Ok feed)
             (info_shortName e) (polarity e) (fadd e) (fdiv e) in
  get_news_data (with_feed (prefix ++ tail1)%list) symbol
  = get_news_data (with_feed (prefix ++ tail2)%list) symbol.
Proof.
  intros Hinfo Hsplit Hfive with_feed.
  assert (Hcol : forall tail,
    firstn 5 (filter (is_relevant [symbol; word]) (prefix ++ tail)%list)
    = firstn 5 (filter (is_relevant [symbol; word]) prefix)).
  { intros tail. rewrite filter_app, firstn_app.
    replace (5 - List.length (filter (is_relevant [symbol; word]) prefix))%nat
      with 0%nat by lia.
    cbn [firstn]. now rewrite app_nil_r. }
  assert (Hdata : forall tail,
    get_news_data (with_feed (prefix ++ tail)%list) symbol
    = get_news_data (with_feed prefix) symbol).
  { intros tail. unfold get_news_data, news_try, with_feed.
    cbn [news info_shortName]. rewrite Hinfo, Hsplit. cbn [first].
    destruct (news_loop_collects
                (mk_world (history_1mo_Close e) (rsi_14_last e)
                   (fun _ => Ok (prefix ++ tail)%list)
                   (info_shortName e) (polarity e) (fadd e) (fdiv e))
                [symbol; word] (prefix ++ tail)%list (prefix ++ tail)%list)
      as [Hh [Hc Ht]].
    destruct (news_loop_collects
                (mk_world (history_1mo_Close e) (rsi_14_last e)
                   (fun _ => Ok prefix)
                   (info_shortName e) (polarity e) (fadd e) (fdiv e))
                [symbol; word] prefix prefix)
      as [Hh' [Hc' Ht']].
    rewrite Hcol in Hh, Hc, Ht.
    rewrite Hh, Hc, Ht, Hh', Hc', Ht'. reflexivity. }
  now rewrite (Hdata tail1), (Hdata tail2).
Qed.

Lemma items_after_fifth_are_ignored_witness :
  let e := ReportScenarios.report_provider (Ok [])
             (Ok (Some "Advanced Micro Devices, Inc.")) in
  let with_feed feed :=
    mk_world (history_1mo_Close e) (rsi_14_last e) (fun _ => Ok feed)
             (info_shortName e) (polarity e) (fadd e) (fdiv e) in
  get_news_data
    (with_feed (firstn 6 ReportScenarios.feed
                ++ skipn 6 ReportScenarios.feed)%list) "AMD"
  = get_news_data (with_feed (firstn 6 ReportScenarios.feed ++ [])%list) "AMD".
Proof.
  apply (items_after_fifth_are_ignored
           (ReportScenarios.report_provider (Ok [])
              (Ok (Some "Advanced Micro Devices, Inc.")))
           "AMD" (Some "Advanced Micro Devices, Inc.")
           "Advanced" ["Micro"; "Devices,"; "Inc."]
           (firstn 6 ReportScenarios.feed) (skipn 6 ReportScenarios.feed) []).
  - reflexivity.
  - reflexivity.
  - simpl. lia.
Defined.

End TechReportMore.
